(** * Studycentre: quiz difficulty control, grading fallback, topic
      performance and revision planning

    Shallow embedding of the parts of [src/main.py] that decide anything:
    [QuizAgent.grade_quiz], [QuizAgent.track_results],
    [QuizAgent.get_next_difficulty], [PlannerAgent.create_revision_plan]
    and the per-topic averaging done inline by the [/planner/create]
    endpoint; further on, the agents that only relay the service
    ([FlashcardGenerator.generate], [QuizAgent.generate_quiz],
    [DoubtAgent.ask_question], [PlannerAgent.get_topic_analysis]),
    [DocumentTextExtractor._table_to_markdown] and the endpoints
    [/quiz/grade], [/performance/{context_id}], [/planner/topics] and
    [/upload].  Downloading, file parsing, the database and the validation
    of responses are not modelled.

    Modelling conventions.
    - Whatever [json.loads] can return is a [value]; Python's dynamic checks
      ([.get] on a non-dict, iteration over a non-iterable, item assignment
      on a non-dict, [sum] over non-numbers) are written out and raise.
    - Python floats are exact rationals ([Q]); the rounding of float
      addition and division is not modelled.  For a window of booleans the
      score is the correctly rounded quotient of two integers, and its
      comparisons with the literals 0.8 and 0.5 agree with the rational
      ones for every window shorter than 2^50 entries.
    - The text-generation service, [datetime.fromisoformat],
      [datetime.isoformat], [str] of an exception and the system clock are
      parameters of the development. *)

From Stdlib Require Import QArith Lqa Ascii String.
From stdpp Require Import gmap strings list.

Local Open Scope Z_scope.

(** ** Python values and exceptions *)

Module Py.

#[warnings="-register-all"]
Inductive value :=
| VNone
| VBool (b : bool)
| VNum (q : Q)
| VStr (s : string)
| VList (l : list value)
| VDict (kvs : list (string * value)).

Inductive exn :=
| OpenAIError
| JSONDecodeError
| AttributeError
| TypeError.

Inductive outcome (A : Type) :=
| Ok (a : A)
| Raise (e : exn).
Arguments Ok {A} a.
Arguments Raise {A} e.

Definition obind {A B} (m : outcome A) (f : A -> outcome B) : outcome B :=
  match m with
  | Ok a => f a
  | Raise e => Raise e
  end.

(** [try: body / except Exception as e: handler e]. *)
Definition try_except {A} (body : outcome A) (handler : exn -> outcome A)
  : outcome A :=
  match body with
  | Ok a => Ok a
  | Raise e => handler e
  end.

(** Dicts keep insertion order; keys are unique. *)
Fixpoint dict_lookup (kvs : list (string * value)) (k : string)
  : option value :=
  match kvs with
  | [] => None
  | (k', v) :: rest => if String.eqb k' k then Some v else dict_lookup rest k
  end.

Fixpoint dict_store (kvs : list (string * value)) (k : string) (x : value)
  : list (string * value) :=
  match kvs with
  | [] => [(k, x)]
  | (k', v) :: rest =>
      if String.eqb k' k then (k', x) :: rest
      else (k', v) :: dict_store rest k x
  end.

(** [o.get(k, d)]: only dicts have [get]. *)
Definition py_get (o : value) (k : string) (d : value) : outcome value :=
  match o with
  | VDict kvs => Ok (default d (dict_lookup kvs k))
  | _ => Raise AttributeError
  end.

(** [o[k] = x] for a string key [k]: only dicts accept it. *)
Definition py_setitem (o : value) (k : string) (x : value) : outcome value :=
  match o with
  | VDict kvs => Ok (VDict (dict_store kvs k x))
  | _ => Raise TypeError
  end.

Fixpoint chars (s : string) : list value :=
  match s with
  | EmptyString => []
  | String c rest => VStr (String c EmptyString) :: chars rest
  end.

(** [for item in o]: lists give their elements, dicts their keys, strings
    their characters; nothing else is iterable. *)
Definition py_iter (o : value) : outcome (list value) :=
  match o with
  | VList l => Ok l
  | VDict kvs => Ok (map (fun kv => VStr (fst kv)) kvs)
  | VStr s => Ok (chars s)
  | _ => Raise TypeError
  end.

(** One step of [sum]: [acc + x].  Exact when the entries are booleans;
    on floats the rounding and overflow of [+] are not modelled. *)
Definition py_add (acc : Q) (x : value) : outcome Q :=
  match x with
  | VBool b => Ok (acc + (if b then 1 else 0))%Q
  | VNum q => Ok (acc + q)%Q
  | _ => Raise TypeError
  end.

(** [sum(l)], starting from 0 and adding left to right. *)
Fixpoint py_sum_from (acc : Q) (l : list value) : outcome Q :=
  match l with
  | [] => Ok acc
  | x :: rest => obind (py_add acc x) (fun acc' => py_sum_from acc' rest)
  end.

Definition py_sum (l : list value) : outcome Q := py_sum_from 0%Q l.

(** [a > b] and [a < b] on numbers. *)
Definition gtb (a b : Q) : bool := negb (Qle_bool a b).
Definition ltb (a b : Q) : bool := negb (Qle_bool b a).

End Py.
Export Py.

(** ** The text-generation service *)

Inductive reply :=
| CallFailed                (* [chat.completions.create] raised *)
| Unparsable                (* [json.loads] raised on the content *)
| Parsed (data : value).    (* [json.loads] returned [data] *)

(** ** QuizAgent *)

Module QuizAgent.

(** A method of the agent: it reads and writes [self.accuracy_tracker] and
    may raise; the tracker survives a raise as it was left. *)
Definition M (A : Type) : Type := list value -> outcome A * list value.

Definition ret {A} (a : A) : M A := fun tr => (Ok a, tr).
Definition raise {A} (e : exn) : M A := fun tr => (Raise e, tr).
Definition bind {A B} (m : M A) (f : A -> M B) : M B :=
  fun tr =>
    match m tr with
    | (Ok a, tr') => f a tr'
    | (Raise e, tr') => (Raise e, tr')
    end.
Definition lift {A} (o : outcome A) : M A := fun tr => (o, tr).
Definition get_tracker : M (list value) := fun tr => (Ok tr, tr).
Definition put_tracker (tr : list value) : M unit := fun _ => (Ok tt, tr).
Definition try_catch {A} (body : M A) (handler : exn -> M A) : M A :=
  fun tr =>
    match body tr with
    | (Ok a, tr') => (Ok a, tr')
    | (Raise e, tr') => handler e tr'
    end.

Declare Scope agent_scope.
Delimit Scope agent_scope with agent.
Notation "x <- m ;; k" := (bind m (fun x => k))
  (at level 100, m at next level, right associativity) : agent_scope.
Notation "m ;;; k" := (bind m (fun _ => k))
  (at level 100, right associativity) : agent_scope.
Local Open Scope agent_scope.

Record qa_pair := { q : string; a : string }.

Record grading_item := {
  question : string;
  correct_answer : string;
  user_answer : string
}.

(** [__init__]: [self.accuracy_tracker = []]. *)
Definition init : list value := [].

(** The loop building [grading_data]. *)
Definition grading_data (quiz_data : list qa_pair) (user_answers : list string)
  : list grading_item :=
  imap (fun i item =>
          {| question := q item;
             correct_answer := a item;
             user_answer := default EmptyString (user_answers !! i) |})
       quiz_data.

(** The loop of [track_results]: one append per item, stopping at the first
    item that has no [get]. *)
Fixpoint track_items (items : list value) : M unit :=
  match items with
  | [] => ret tt
  | item :: rest =>
      ok <- lift (py_get item "is_correct" (VBool false)) ;;
      tr <- get_tracker ;;
      put_tracker (tr ++ [ok]) ;;;
      track_items rest
  end.

Definition track_results (results : value) : M unit :=
  items <- lift (py_iter results) ;;
  track_items items.

Definition error_result : value :=
  VDict [("is_correct", VBool false);
         ("feedback", VStr "Error grading this question.")].

Section Grading.
Variable oracle : list grading_item -> reply.

(** The body of the [try] block. *)
Definition grade_quiz_try (gd : list grading_item) : M value :=
  match oracle gd with
  | CallFailed => raise OpenAIError
  | Unparsable => raise JSONDecodeError
  | Parsed results =>
      rs <- lift (py_get results "results" (VList [])) ;;
      track_results rs ;;;
      lift (py_get results "results" (VList []))
  end.

Definition grade_quiz (quiz_data : list qa_pair) (user_answers : list string)
  : M value :=
  let gd := grading_data quiz_data user_answers in
  try_catch (grade_quiz_try gd)
    (fun _ => ret (VList (replicate (length quiz_data) error_result))).
End Grading.

(** The [if score > 0.8 / elif score < 0.5 / else] cascade. *)
Definition next_level (score : Q) (current_difficulty : string) : string :=
  if gtb score 0.8 then
    if String.eqb current_difficulty "Easy" then "Medium" else "Hard"
  else if ltb score 0.5 then
    if String.eqb current_difficulty "Hard" then "Medium" else "Easy"
  else current_difficulty.

Definition get_next_difficulty (current_difficulty : string) : M string :=
  tr <- get_tracker ;;
  match tr with
  | [] => ret "Easy"
  | _ =>
      total <- lift (py_sum tr) ;;
      let score := (total / inject_Z (Z.of_nat (length tr)))%Q in
      put_tracker [] ;;;
      ret (next_level score current_difficulty)
  end.

End QuizAgent.

(** ** PlannerAgent *)

Module PlannerAgent.

(** A [datetime]: microseconds on the time line, and the UTC offset when
    the value is timezone-aware.  The year range 1..9999 is not modelled. *)
Record datetime := { dt_us : Z; dt_offset : option Z }.

Definition us_per_day : Z := 86400000000.

(** [d + timedelta(days=n)]. *)
Definition add_days (d : datetime) (n : Z) : datetime :=
  {| dt_us := dt_us d + n * us_per_day; dt_offset := dt_offset d |}.

(** [(x - y).days]: a naive and an aware value do not subtract. *)
Definition sub_days (x y : datetime) : outcome Z :=
  match dt_offset x, dt_offset y with
  | None, None => Ok ((dt_us x - dt_us y) / us_per_day)
  | Some ox, Some oy => Ok (((dt_us x - ox) - (dt_us y - oy)) / us_per_day)
  | _, _ => Raise TypeError
  end.

(** [s.replace('Z', '+00:00')]. *)
Fixpoint replace_Z (s : string) : string :=
  match s with
  | EmptyString => EmptyString
  | String c rest =>
      if Ascii.eqb c "Z"%char then String.append "+00:00" (replace_Z rest)
      else String c (replace_Z rest)
  end.

(** What the user prompt is made of: [context[:5000]], the day count, the
    listed topics or the text "All topics from the material", and the dumped
    performance data or the text "No performance data available". *)
Record prompt := {
  p_context : string;
  p_days : Z;
  p_topics : option (list string);
  p_performance : option (gmap string Q)
}.

Record plan_data := {
  plan : value;
  summary : value;
  exam_date : string;
  days_until_exam : Z
}.

(** [x if x else <text>] for a list or dict argument. *)
Definition if_topics (topics : option (list string)) : option (list string) :=
  match topics with
  | Some (t :: ts) => Some (t :: ts)
  | _ => None
  end.

Definition if_performance (perf : option (gmap string Q))
  : option (gmap string Q) :=
  match perf with
  | Some m => if decide (m = ∅) then None else Some m
  | None => None
  end.

Section Planner.
Variable oracle : prompt -> reply.
Variable fromisoformat : string -> option datetime.
Variable isoformat : datetime -> string.
Variable str_exn : exn -> string.
(** [clock k]: what the k-th call of [datetime.now()] made by one
    invocation returns. *)
Variable clock : nat -> Z.

Definition now (k : nat) : datetime :=
  {| dt_us := clock k; dt_offset := None |}.

(** The exam date in use, and how many clock readings it took. *)
Definition exam_datetime (exam_date : option string) : datetime * nat :=
  let fallback := (add_days (now 0) 30, 1%nat) in
  match exam_date with
  | None => fallback
  | Some EmptyString => fallback
  | Some s =>
      match fromisoformat (replace_Z s) with
      | Some d => (d, 0%nat)
      | None => fallback
      end
  end.

(** The loop stamping [day_plan["date"]], from index [i] on. *)
Fixpoint stamp_dates (start_date : datetime) (i : nat) (items : list value)
  : outcome (list value) :=
  match items with
  | [] => Ok []
  | day_plan :: rest =>
      obind (py_setitem day_plan "date"
               (VStr (isoformat (add_days start_date (Z.of_nat i)))))
        (fun day_plan' =>
           obind (stamp_dates start_date (S i) rest)
             (fun rest' => Ok (day_plan' :: rest')))
  end.

(** The plan object after the loop: a list holds the stamped entries; any
    other iterable got through the loop only by being empty. *)
Definition stamped (plan : value) (items' : list value) : value :=
  match plan with
  | VList _ => VList items'
  | other => other
  end.

(** The body of the [try] block. *)
Definition create_revision_plan_try (pr : prompt) (exam_dt : datetime)
    (k : nat) : outcome plan_data :=
  match oracle pr with
  | CallFailed => Raise OpenAIError
  | Unparsable => Raise JSONDecodeError
  | Parsed data =>
      obind (py_get data "plan" (VList [])) (fun plan0 =>
      let start_date := now k in
      obind (py_iter plan0) (fun items =>
      obind (stamp_dates start_date 0 items) (fun items' =>
      obind (py_get data "summary" (VStr "")) (fun summary0 =>
      Ok {| plan := stamped plan0 items';
            summary := summary0;
            exam_date := isoformat exam_dt;
            days_until_exam := p_days pr |}))))
  end.

Definition create_revision_plan (context : string)
    (exam_date : option string) (topics : option (list string))
    (current_performance : option (gmap string Q)) : outcome plan_data :=
  let '(exam_dt, k) := exam_datetime exam_date in
  obind (sub_days exam_dt (now k)) (fun raw_days =>
  let days := Z.max 1 raw_days in
  let pr := {| p_context := substring 0 (Z.to_nat 5000) context;
               p_days := days;
               p_topics := if_topics topics;
               p_performance := if_performance current_performance |} in
  try_except (create_revision_plan_try pr exam_dt (S k))
    (fun e =>
       Ok {| plan := VList [];
             summary := VStr (String.append "Error creating plan: " (str_exn e));
             exam_date := isoformat exam_dt;
             days_until_exam := days |})).
End Planner.

End PlannerAgent.

(** ** The [/planner/create] endpoint *)

Module Api.

Definition MAX_TEXT_FOR_AI : nat := Z.to_nat 8000.

(** A [PerformanceMetric] row, as far as the endpoint reads it. *)
Record metric := { topic : string; score : Q }.

(** The loop grouping the scores by topic, in row order. *)
Definition group_step (d : gmap string (list Q)) (m : metric)
  : gmap string (list Q) :=
  let d' := match d !! topic m with
            | None => <[topic m := []]> d
            | Some _ => d
            end in
  alter (fun v => v ++ [score m]) (topic m) d'.

Definition group_scores (performance_metrics : list metric)
  : gmap string (list Q) :=
  foldl group_step ∅ performance_metrics.

(** [sum(v)/len(v) if v else 0.5], in exact arithmetic: the rounding of
    the float sum, which can depend on the order of [v], is not modelled. *)
Definition average (v : list Q) : Q :=
  match v with
  | [] => 0.5
  | _ => foldl Qplus 0 v / inject_Z (Z.of_nat (length v))
  end%Q.

Definition performance_dict (performance_metrics : list metric)
  : gmap string Q :=
  average <$> group_scores performance_metrics.

Record create_plan_request := {
  req_exam_date : option string;
  req_topics : option (list string)
}.

Section Endpoint.
Variable oracle : PlannerAgent.prompt -> reply.
Variable fromisoformat : string -> option PlannerAgent.datetime.
Variable isoformat : PlannerAgent.datetime -> string.
Variable str_exn : exn -> string.
Variable clock : nat -> Z.

(** The endpoint up to the call of the planner, on the document text and
    the metric rows the database returned; storing the plan is left out. *)
Definition create_revision_plan (text : string)
    (performance_metrics : list metric) (request : create_plan_request)
  : outcome PlannerAgent.plan_data :=
  let d := performance_dict performance_metrics in
  PlannerAgent.create_revision_plan oracle fromisoformat isoformat str_exn
    clock (substring 0 MAX_TEXT_FOR_AI text) (req_exam_date request)
    (req_topics request)
    (if decide (d = ∅) then None else Some d).
End Endpoint.

End Api.

(** ** Truthiness *)

Module Truthiness.

(** [bool(v)], as [if v] and [if not v] use it. *)
Definition py_truthy (v : value) : bool :=
  match v with
  | VNone => false
  | VBool b => b
  | VNum q => negb (Qeq_bool q 0)
  | VStr s => negb (String.eqb s EmptyString)
  | VList l => match l with [] => false | _ => true end
  | VDict kvs => match kvs with [] => false | _ => true end
  end.

(** [len(v)]: strings, lists and dicts have a length, nothing else does. *)
Definition py_len (v : value) : outcome nat :=
  match v with
  | VStr s => Ok (String.length s)
  | VList l => Ok (length l)
  | VDict kvs => Ok (length kvs)
  | _ => Raise TypeError
  end.

End Truthiness.
Export Truthiness.

(** ** The agents that only relay the service

    Here a service maps what the prompt is built from to what
    [json.loads] made of the answer; [Raise e] stands for the exception [e]
    coming out of [chat.completions.create] or of [json.loads].  For
    [generate], whose first handler reads a variable bound in between, the
    two are kept apart. *)

Module Agents.

Record quiz_prompt := {
  quiz_context : string;
  quiz_difficulty : string;
  quiz_num_questions : Z
}.

Record doubt_prompt := {
  doubt_context : string;
  doubt_question : string
}.

Section Relays.
(** [str.strip] and [str] of an exception. *)
Variable strip : string -> string.
Variable str_exn : exn -> string.

(** [not s or not s.strip()]. *)
Definition blank (s : string) : bool :=
  String.eqb s EmptyString || String.eqb (strip s) EmptyString.

(** How one request of [generate] went: an exception before
    [response_content] was bound (out of the call, or out of reading the
    content of the completion), an exception out of [json.loads], or the
    loaded data. *)
Inductive attempt :=
| RaisedEarly (e : exn)
| RaisedLoading (e : exn)
| Loaded (data : value).

(** How [generate] ends: with a value, or with the UnboundLocalError of a
    handler. *)
Inductive ending :=
| Returned (v : value)
| RaisedUnboundLocalError.

(** The three [except] clauses of [generate]; the first one logs
    [response_content], which has a value only if [bound]. *)
Definition generate_handlers (bound : bool) (e : exn) : ending :=
  match e with
  | JSONDecodeError =>
      if bound then Returned (VList []) else RaisedUnboundLocalError
  | OpenAIError => Returned (VList [])
  | _ => Returned (VList [])
  end.

(** [FlashcardGenerator.generate]; the log line of the success path takes
    [len(flashcards)]. *)
Definition generate (oracle : string -> attempt) (text : string) : ending :=
  if blank text then Returned (VList [])
  else
    match oracle text with
    | RaisedEarly e => generate_handlers false e
    | RaisedLoading e => generate_handlers true e
    | Loaded data =>
        match
          obind (py_get data "flashcards" (VList [])) (fun flashcards =>
          if negb (py_truthy flashcards) then Ok (VList [])
          else obind (py_len flashcards) (fun _ => Ok flashcards))
        with
        | Ok v => Returned v
        | Raise e => generate_handlers true e
        end
    end.

(** [QuizAgent.generate_quiz]; the log line of the success path takes
    [len(quiz)]. *)
Definition generate_quiz (oracle : quiz_prompt -> outcome value)
    (context difficulty : string) (num_questions : Z) : outcome value :=
  try_except
    (obind (oracle {| quiz_context := context;
                      quiz_difficulty := difficulty;
                      quiz_num_questions := num_questions |}) (fun data =>
     obind (py_get data "questions" (VList [])) (fun quiz =>
     if negb (py_truthy quiz) then Ok (VList [])
     else obind (py_len quiz) (fun _ => Ok quiz))))
    (fun _ => Ok (VList [])).

Definition answer_only (answer : string) : value :=
  VDict [("answer", VStr answer); ("reference", VStr EmptyString)].

(** [DoubtAgent.ask_question]: only the two named exceptions are handled. *)
Definition ask_question (oracle : doubt_prompt -> outcome value)
    (question context : string) : outcome value :=
  if blank context then
    Ok (answer_only "Error: No document context was provided.")
  else if String.eqb question EmptyString then
    Ok (answer_only "Error: No question was asked.")
  else
    match oracle {| doubt_context := context; doubt_question := question |} with
    | Ok data => Ok data
    | Raise JSONDecodeError =>
        Ok (answer_only "Error: Failed to get a valid response from AI.")
    | Raise OpenAIError =>
        Ok (answer_only (String.append "Error: " (str_exn OpenAIError)))
    | Raise e => Raise e
    end.

(** [PlannerAgent.get_topic_analysis]; the service sees [context[:5000]]. *)
Definition get_topic_analysis (oracle : string -> outcome value)
    (context : string) : outcome value :=
  try_except
    (obind (oracle (substring 0 (Z.to_nat 5000) context)) (fun data =>
     py_get data "topics" (VList [])))
    (fun _ => Ok (VList [])).
End Relays.

End Agents.

(** ** DocumentTextExtractor._table_to_markdown

    A table is a list of rows, a row a list of cells, a cell a string or
    [None]. *)

Module Extractor.

Definition row := list (option string).

(** [cell if cell is not None else ""]. *)
Definition cell_text (cell : option string) : string :=
  default EmptyString cell.

(** [s.replace("|", "\\|")]. *)
Fixpoint escape_pipes (s : string) : string :=
  match s with
  | EmptyString => EmptyString
  | String c rest =>
      if Ascii.eqb c "|"%char then
        String "\"%char (String "|"%char (escape_pipes rest))
      else String c (escape_pipes rest)
  end.

(** A row counts when it has a cell ([if row]). *)
Definition has_cells (r : row) : bool :=
  match r with
  | [] => false
  | _ => true
  end.

(** [max(len(row) for row in table_data if row)]. *)
Definition num_cols (table_data : list row) : nat :=
  max_list (length <$> filter (fun r => has_cells r = true) table_data).

(** The cells of a row, [None] replaced, filled up with [""] to [n]. *)
Definition padded (n : nat) (r : row) : list string :=
  let cells := cell_text <$> r in
  cells ++ replicate (n - length cells) EmptyString.

Definition row_line (n : nat) (r : row) : string :=
  String.append "| "
    (String.append (String.concat " | " (escape_pipes <$> padded n r)) " |").

Definition separator_line (n : nat) : string :=
  String.append "|"
    (String.append (String.concat "|" (replicate n "---"%string)) "|").

(** [markdown_lines] once the guard has let the table through. *)
Definition markdown_lines (table_data : list row) : list string :=
  match table_data with
  | [] => []
  | header :: body =>
      let n := num_cols table_data in
      row_line n header :: separator_line n
        :: (row_line n <$> filter (fun r => has_cells r = true) body)
  end.

Definition newline : string := String (ascii_of_nat 10) EmptyString.

Definition _table_to_markdown (table_data : list row) : string :=
  if negb (existsb has_cells table_data) then EmptyString
  else String.concat newline (markdown_lines table_data).

End Extractor.

(** ** More endpoints *)

Module QuizResult.
Record t := {
  document_id : string;
  difficulty : string;
  score : Q;
  total_questions : nat
}.
End QuizResult.

Module Flashcard.
Record t := { mastery_level : Q }.
End Flashcard.

Module Endpoints.
Import QuizAgent.
Local Open Scope agent_scope.

Record grade_quiz_request := {
  quiz_data : list qa_pair;
  user_answers : list string;
  context_id : string;
  difficulty : string
}.

(** [sum(1 for r in results if r.get("is_correct", False))]. *)
Fixpoint correct_count (results : list value) : outcome nat :=
  match results with
  | [] => Ok 0%nat
  | r :: rest =>
      obind (py_get r "is_correct" (VBool false)) (fun c =>
      obind (correct_count rest) (fun n =>
      Ok (if py_truthy c then S n else n)))
  end.

(** [/quiz/grade]: the row handed to the database and the results handed
    to the response model, on the process-wide agent. *)
Definition grade_quiz (oracle : list grading_item -> reply)
    (request : grade_quiz_request) : M (QuizResult.t * value) :=
  results <- QuizAgent.grade_quiz oracle (quiz_data request)
               (user_answers request) ;;
  items <- lift (py_iter results) ;;
  count <- lift (correct_count items) ;;
  let score :=
    if py_truthy results then
      (inject_Z (Z.of_nat count) / inject_Z (Z.of_nat (length items)))%Q
    else 0%Q in
  ret ({| QuizResult.document_id := context_id request;
          QuizResult.difficulty := difficulty request;
          QuizResult.score := score;
          QuizResult.total_questions := length items |},
       results).

Record performance_stats := {
  stats_document_id : string;
  total_quizzes : nat;
  average_score : Q;
  total_flashcards : nat;
  mastered_flashcards : nat;
  topic_performance : gmap string Q
}.

(** [sum(v)/len(v) if v else 0.0]. *)
Definition average_or_zero (v : list Q) : Q :=
  match v with
  | [] => 0
  | _ => foldl Qplus 0 v / inject_Z (Z.of_nat (length v))
  end%Q.

(** [/performance/{context_id}], on the rows the three queries returned. *)
Definition get_performance_stats (context_id : string)
    (quiz_results : list QuizResult.t) (flashcards : list Flashcard.t)
    (performance_metrics : list Api.metric) : performance_stats :=
  let total_quizzes := length quiz_results in
  let avg_score :=
    if (0 <? Z.of_nat total_quizzes) then
      (foldl Qplus 0 (QuizResult.score <$> quiz_results)
       / inject_Z (Z.of_nat total_quizzes))%Q
    else 0%Q in
  {| stats_document_id := context_id;
     total_quizzes := total_quizzes;
     average_score := avg_score;
     total_flashcards := length flashcards;
     mastered_flashcards :=
       length (filter (fun f => Qle_bool 0.8 (Flashcard.mastery_level f) = true)
                      flashcards);
     topic_performance :=
       average_or_zero <$> Api.group_scores performance_metrics |}.

(** What an endpoint can fail with. *)
Inductive failure :=
| HTTPException (status_code : Z) (detail : string)
| OtherError (message : string).

Inductive result (A : Type) :=
| Done (a : A)
| Failed (e : failure).
Arguments Done {A} a.
Arguments Failed {A} e.

Record document := {
  doc_id : string;
  doc_filename : string;
  doc_text_content : string;
  doc_text_length : nat
}.

Record upload_response := {
  up_context_id : string;
  up_filename : string;
  up_text_length : nat;
  up_text_snippet : string
}.

Section Upload.
(** Writing the upload to a temporary file, extracting its text and
    removing the file; storing a document; a fresh identifier; [str] of an
    exception. *)
Variable extract_text : string -> result string.
Variable commit : document -> result unit.
Variable uuid4 : string.
Variable str_failure : failure -> string.

(** The body of the [try] block of [/upload]. *)
Definition upload_document_try (filename : string) : result upload_response :=
  match extract_text filename with
  | Failed e => Failed e
  | Done text =>
      if String.eqb text EmptyString then
        Failed (HTTPException 400
                  "Could not extract any text from the document.")
      else
        match commit {| doc_id := uuid4;
                        doc_filename := filename;
                        doc_text_content := text;
                        doc_text_length := String.length text |} with
        | Failed e => Failed e
        | Done _ =>
            Done {| up_context_id := uuid4;
                    up_filename := filename;
                    up_text_length := String.length text;
                    up_text_snippet :=
                      String.append (substring 0 200 text) "..." |}
        end
  end.

Definition upload_document (filename : string) : result upload_response :=
  match upload_document_try filename with
  | Done r => Done r
  | Failed e =>
      Failed (HTTPException 500
                (String.append "An error occurred: " (str_failure e)))
  end.
End Upload.

(** [/planner/topics], on the document text. *)
Definition analyze_topics (oracle : string -> outcome value) (text : string)
  : outcome value :=
  Agents.get_topic_analysis oracle (substring 0 Api.MAX_TEXT_FOR_AI text).

End Endpoints.

(** * What the properties speak of *)

Module Notions.
Import QuizAgent PlannerAgent Api.

Definition levels : list string := ["Easy"; "Medium"; "Hard"].

(** Position of a level in the order Easy < Medium < Hard. *)
Definition rank (level : string) : option nat :=
  if String.eqb level "Easy" then Some 0%nat
  else if String.eqb level "Medium" then Some 1%nat
  else if String.eqb level "Hard" then Some 2%nat
  else None.

(** [next] is [current] or one of its neighbours in the order. *)
Definition one_step (current next : string) : Prop :=
  exists i j, rank current = Some i /\ rank next = Some j /\
              (i <= j + 1)%nat /\ (j <= i + 1)%nat.

(** The window [tr] holds data and its aggregate accuracy is [score]. *)
Definition has_score (tr : list value) (score : Q) : Prop :=
  tr <> [] /\
  exists total, py_sum tr = Ok total /\
                (score == total / inject_Z (Z.of_nat (length tr)))%Q.

(** [item] is an object whose "is_correct" entry, [False] when absent, is
    the boolean [flag]. *)
Definition graded (item : value) (flag : bool) : Prop :=
  exists kvs, item = VDict kvs /\
              default (VBool false) (dict_lookup kvs "is_correct") = VBool flag.

(** The scores recorded for topic [t], in row order. *)
Definition scores_of (t : string) (ms : list metric) : list Q :=
  score <$> filter (fun m => topic m = t) ms.

(** Arithmetic mean: the sum of the entries over their number. *)
Definition mean (v : list Q) : Q :=
  (fold_right Qplus 0 v / inject_Z (Z.of_nat (length v)))%Q.

Definition in_range (x : Q) : Prop := (0 <= x)%Q /\ (x <= 1)%Q.

Definition nonempty (v : list Q) : option (list Q) :=
  match v with
  | [] => None
  | _ => Some v
  end.

(** What a plan for an empty topic list would have to look like: [horizon]
    entries, each with no topics, no minutes and low focus. *)
Definition empty_day (item : value) : Prop :=
  py_get item "topics" VNone = Ok (VList []) /\
  py_get item "duration_minutes" VNone = Ok (VNum 0) /\
  py_get item "focus" VNone = Ok (VStr "low").

Definition degenerate_plan (pd : plan_data) (horizon : Z) : Prop :=
  exists items, plan pd = VList items /\
                Z.of_nat (length items) = horizon /\
                Forall empty_day items.

(** Day numbers 1, 2, ... up to the horizon. *)
Definition days_numbered (pd : plan_data) : Prop :=
  exists items, plan pd = VList items /\
                Z.of_nat (length items) = days_until_exam pd /\
                forall i item, items !! i = Some item ->
                  py_get item "day" VNone
                  = Ok (VNum (inject_Z (Z.of_nat i + 1))).

End Notions.

(** * Sample data and services *)

Module Samples.
Import QuizAgent PlannerAgent Api.

Definition two_questions : list qa_pair :=
  [{| q := "What is a limit?"; a := "A value approached" |};
   {| q := "What is a derivative?"; a := "A rate of change" |}].

Definition two_verdicts : list value :=
  [VDict [("is_correct", VBool true); ("feedback", VStr "Right.")];
   VDict [("feedback", VStr "No verdict given.")]].

Definition algebra_geometry : list metric :=
  [{| topic := "algebra"; score := 0.8 |};
   {| topic := "algebra"; score := 0.6 |};
   {| topic := "geometry"; score := 0.4 |}].

Definition with_bad_score : list metric :=
  [{| topic := "algebra"; score := 0.9 |};
   {| topic := "algebra"; score := 1.5 |}].

Definition naive (us : Z) : datetime := {| dt_us := us; dt_offset := None |}.

(** A clock that starts at the epoch and advances one microsecond per
    reading. *)
Definition sample_clock (k : nat) : Z := Z.of_nat k.

Definition sample_fromisoformat (s : string) : option datetime :=
  if String.eqb s "1970-01-01T00:00:00" then Some (naive 0)
  else if String.eqb s "1970-01-03T00:00:00" then Some (naive (2 * us_per_day))
  else if String.eqb s "1970-01-06T00:00:00" then Some (naive (5 * us_per_day))
  else None.

Definition sample_isoformat (d : datetime) : string :=
  let day := dt_us d / us_per_day in
  if day =? 0 then "1970-01-01"
  else if day =? 1 then "1970-01-02"
  else if day =? 2 then "1970-01-03"
  else if day =? 5 then "1970-01-06"
  else "later".

Definition sample_str_exn (e : exn) : string :=
  match e with
  | OpenAIError => "Connection error."
  | JSONDecodeError => "Expecting value"
  | AttributeError => "object has no attribute 'get'"
  | TypeError => "object does not support item assignment"
  end.

(** A service that answers every prompt with the same two-entry plan. *)
Definition sample_oracle (_ : prompt) : reply :=
  Parsed (VDict
    [("plan",
      VList [VDict [("day", VNum 5);
                    ("topics", VList [VStr "Limits"]);
                    ("duration_minutes", VNum 60);
                    ("focus", VStr "high")];
             VDict [("day", VNum 2);
                    ("topics", VList [VStr "Series"]);
                    ("duration_minutes", VNum 45);
                    ("focus", VStr "medium")]]);
     ("summary", VStr "Limits first.")]).

Definition sample_days : list value :=
  [VDict [("day", VNum 5);
          ("topics", VList [VStr "Limits"]);
          ("duration_minutes", VNum 60);
          ("focus", VStr "high");
          ("date", VStr "1970-01-01")];
   VDict [("day", VNum 2);
          ("topics", VList [VStr "Series"]);
          ("duration_minutes", VNum 45);
          ("focus", VStr "medium");
          ("date", VStr "1970-01-02")]].

Definition sample_result (exam : string) (days : Z) : plan_data :=
  {| plan := VList sample_days;
     summary := VStr "Limits first.";
     exam_date := exam;
     days_until_exam := days |}.

Definition run (exam_date : option string) (topics : option (list string))
    (perf : option (gmap string Q)) : outcome plan_data :=
  PlannerAgent.create_revision_plan sample_oracle sample_fromisoformat
    sample_isoformat
    sample_str_exn sample_clock "Limits and series." exam_date topics perf.

End Samples.

(** * More of what the properties speak of *)

Module MoreNotions.

(** What [sum] can add: booleans and numbers. *)
Definition summable (v : value) : bool :=
  match v with
  | VBool _ | VNum _ => true
  | _ => false
  end.

(** The amount a summable value adds. *)
Definition amount (v : value) : Q :=
  match v with
  | VBool true => 1
  | VNum q => q
  | _ => 0
  end.

Definition total (l : list value) : Q :=
  fold_right (fun v acc => (amount v + acc)%Q) 0%Q l.

Definition count_true (flags : list bool) : nat :=
  length (filter (fun b => b = true) flags).

(** The pipes of [s] that do not follow a backslash; [escaped] tells
    whether the character before [s] was a backslash. *)
Fixpoint bare_pipes (escaped : bool) (s : string) : nat :=
  match s with
  | EmptyString => 0%nat
  | String c rest =>
      ((if Ascii.eqb c "|"%char && negb escaped then 1 else 0)
       + bare_pipes (Ascii.eqb c "\"%char) rest)%nat
  end.

(** Whether the text read so far ends in a backslash. *)
Fixpoint ends_escaped (escaped : bool) (s : string) : bool :=
  match s with
  | EmptyString => escaped
  | String c rest => ends_escaped (Ascii.eqb c "\"%char) rest
  end.

(** Whether [s] contains a line feed. *)
Fixpoint has_newline (s : string) : bool :=
  match s with
  | EmptyString => false
  | String c rest => Ascii.eqb c (ascii_of_nat 10) || has_newline rest
  end.

(** The lines of a text, as [s.split("\n")] gives them. *)
Fixpoint split_lines (s : string) : list string :=
  match s with
  | EmptyString => [EmptyString]
  | String c rest =>
      if Ascii.eqb c (ascii_of_nat 10) then EmptyString :: split_lines rest
      else
        match split_lines rest with
        | [] => [String c EmptyString]
        | line :: lines => String c line :: lines
        end
  end.

End MoreNotions.

(** * More sample data and services *)

Module MoreSamples.
Import PlannerAgent.

(** A parser that reads every date as an aware one. *)
Definition aware_parser (s : string) : option datetime :=
  Some {| dt_us := 5 * us_per_day; dt_offset := Some 0 |}.

(** A service whose plan has a stray string among its entries. *)
Definition broken_oracle (_ : prompt) : reply :=
  Parsed (VDict [("plan", VList [VDict [("day", VNum 1)]; VStr "rest"])]).

(** A grading request for the two sample questions, one answer given. *)
Definition sample_grade_request : Endpoints.grade_quiz_request :=
  {| Endpoints.quiz_data := Samples.two_questions;
     Endpoints.user_answers := ["a limit"];
     Endpoints.context_id := "doc";
     Endpoints.difficulty := "Easy" |}.

(** A ragged table: a header of two cells, an empty row, a row of three
    cells with a pipe and a missing cell. *)
Definition ragged_table : list Extractor.row :=
  [[Some "Topic"; Some "Pages"];
   [];
   [Some "Limits | series"; None; Some "12"]].

End MoreSamples.

(** * Properties *)

(** ** Numbers and dicts *)

Lemma gtb_true (x y : Q) : gtb x y = true <-> (y < x)%Q.
Proof.
  unfold gtb. rewrite negb_true_iff, <- not_true_iff_false, Qle_bool_iff.
  split; [apply Qnot_le_lt | apply Qlt_not_le].
Qed.

Lemma gtb_false (x y : Q) : gtb x y = false <-> (x <= y)%Q.
Proof. unfold gtb. rewrite negb_false_iff. apply Qle_bool_iff. Qed.

Lemma ltb_true (x y : Q) : ltb x y = true <-> (x < y)%Q.
Proof. apply gtb_true. Qed.

Lemma ltb_false (x y : Q) : ltb x y = false <-> (y <= x)%Q.
Proof. apply gtb_false. Qed.

Lemma dict_lookup_store_eq kvs k x : dict_lookup (dict_store kvs k x) k = Some x.
Proof.
  induction kvs as [|[k' v] kvs IH]; simpl.
  - by rewrite String.eqb_refl.
  - destruct (String.eqb k' k) eqn:E; simpl; rewrite E; [done | apply IH].
Qed.

Lemma dict_lookup_store_ne kvs k k' x :
  k <> k' -> dict_lookup (dict_store kvs k x) k' = dict_lookup kvs k'.
Proof.
  intros Hne. induction kvs as [|[k0 v] kvs IH]; simpl.
  - apply String.eqb_neq in Hne. by rewrite Hne.
  - destruct (String.eqb k0 k) eqn:E; simpl.
    + apply String.eqb_eq in E. subst k0.
      apply String.eqb_neq in Hne. by rewrite Hne.
    + destruct (String.eqb k0 k'); [done | apply IH].
Qed.

(** ** The difficulty decision *)

Module DifficultyFacts.
Import QuizAgent Notions.

Lemma levels_cases level :
  level ∈ levels -> level = "Easy" \/ level = "Medium" \/ level = "Hard".
Proof.
  unfold levels. intros H.
  repeat (apply elem_of_cons in H as [-> | H]; [tauto |]).
  by apply elem_of_nil in H.
Qed.

Lemma next_level_proper (s s' : Q) current :
  (s == s')%Q -> next_level s current = next_level s' current.
Proof.
  intros E. unfold next_level, gtb, ltb.
  by rewrite !(Qleb_comp _ _ E _ _ (Qeq_refl _)),
             !(Qleb_comp _ _ (Qeq_refl _) _ _ E).
Qed.

(** With data in the window, a call clears the window and answers by the
    cascade on the score. *)
Lemma get_next_difficulty_scored current tr score :
  has_score tr score ->
  get_next_difficulty current tr = (Ok (next_level score current), []).
Proof.
  intros [Hne (total & Hsum & Hscore)].
  unfold get_next_difficulty, bind, get_tracker, lift, put_tracker, ret.
  destruct tr as [|x tr']; [done |].
  rewrite Hsum. f_equal. f_equal. symmetry. by apply next_level_proper.
Qed.

Lemma next_level_stay score current :
  (0.5 <= score)%Q -> (score <= 0.8)%Q ->
  next_level score current = current.
Proof.
  intros Hlo Hhi. unfold next_level.
  apply gtb_false in Hhi. apply ltb_false in Hlo.
  by rewrite Hhi, Hlo.
Qed.

Lemma next_level_up score current :
  (0.8 < score)%Q ->
  next_level score current =
    if String.eqb current "Easy" then "Medium" else "Hard".
Proof. intros H. unfold next_level. apply gtb_true in H. by rewrite H. Qed.

Lemma next_level_down score current :
  (score < 0.5)%Q ->
  next_level score current =
    if String.eqb current "Hard" then "Medium" else "Easy".
Proof.
  intros H. unfold next_level.
  assert (gtb score 0.8 = false) as ->
    by (apply gtb_false; apply Qlt_le_weak; eapply Qlt_trans; [exact H | reflexivity]).
  apply ltb_true in H. by rewrite H.
Qed.

Lemma one_step_next_level score current :
  current ∈ levels -> one_step current (next_level score current).
Proof.
  intros Hc. unfold next_level.
  destruct (levels_cases _ Hc) as [-> | [-> | ->]];
    destruct (gtb score 0.8), (ltb score 0.5); simpl;
    unfold one_step, rank; simpl; eexists _, _; repeat split; lia.
Qed.

(** C1: at every level, an aggregate accuracy of exactly 0.8 does not
    escalate and one of exactly 0.5 does not de-escalate: the call returns
    the current level (and has consumed the window). *)
Theorem boundary_scores_keep_level (current : string) (tr : list value)
    (score : Q) :
  current ∈ levels ->
  has_score tr score ->
  (score == 0.8 \/ score == 0.5)%Q ->
  get_next_difficulty current tr = (Ok current, []).
Proof.
  intros _ Hs Hb. rewrite (get_next_difficulty_scored _ _ _ Hs).
  rewrite next_level_stay; [done | |]; destruct Hb as [-> | ->]; discriminate.
Qed.

Lemma boundary_scores_keep_level_witness :
  get_next_difficulty "Medium"
    [VBool true; VBool true; VBool false; VBool true; VBool true]
  = (Ok "Medium", []) /\
  get_next_difficulty "Hard" [VBool true; VBool false] = (Ok "Hard", []).
Proof.
  split.
  - apply (boundary_scores_keep_level "Medium" _ (4 # 5)).
    + unfold levels. rewrite !elem_of_cons. tauto.
    + split; [discriminate |]. exists 4%Q. split; reflexivity.
    + left. reflexivity.
  - apply (boundary_scores_keep_level "Hard" _ (1 # 2)).
    + unfold levels. rewrite !elem_of_cons. tauto.
    + split; [discriminate |]. exists 1%Q. split; reflexivity.
    + right. reflexivity.
Defined.

(** C2: with an empty window (no data) the call answers "Easy" whatever the
    current level is; it is a normal return, and the window stays empty. *)
Theorem no_data_gives_easy (current : string) :
  get_next_difficulty current init = (Ok "Easy", init).
Proof. reflexivity. Qed.

(** C4: from a level, with data in the window, the decision stays or moves
    to a neighbouring level.  Above 0.8 it goes Easy to Medium, Medium to
    Hard and keeps Hard; below 0.5 it goes Hard to Medium, Medium to Easy
    and keeps Easy. *)
Theorem decision_moves_one_step (current : string) (tr : list value)
    (score : Q) :
  current ∈ levels ->
  has_score tr score ->
  exists next,
    get_next_difficulty current tr = (Ok next, []) /\
    one_step current next /\
    ((0.8 < score)%Q ->
       (current = "Easy" -> next = "Medium") /\
       (current = "Medium" -> next = "Hard") /\
       (current = "Hard" -> next = "Hard")) /\
    ((score < 0.5)%Q ->
       (current = "Hard" -> next = "Medium") /\
       (current = "Medium" -> next = "Easy") /\
       (current = "Easy" -> next = "Easy")).
Proof.
  intros Hc Hs. exists (next_level score current).
  split; [by apply get_next_difficulty_scored |].
  split; [by apply one_step_next_level |].
  split; intros H.
  - rewrite (next_level_up _ _ H). repeat split; by intros ->.
  - rewrite (next_level_down _ _ H). repeat split; by intros ->.
Qed.

Lemma decision_moves_one_step_witness :
  exists next,
    get_next_difficulty "Hard" [VBool true; VBool true] = (Ok next, []) /\
    one_step "Hard" next /\
    ((0.8 < 1)%Q ->
       ("Hard" = "Easy" -> next = "Medium") /\
       ("Hard" = "Medium" -> next = "Hard") /\
       ("Hard" = "Hard" -> next = "Hard")) /\
    ((1 < 0.5)%Q ->
       ("Hard" = "Hard" -> next = "Medium") /\
       ("Hard" = "Medium" -> next = "Easy") /\
       ("Hard" = "Easy" -> next = "Easy")).
Proof.
  apply (decision_moves_one_step "Hard" [VBool true; VBool true] 1).
  - unfold levels. rewrite !elem_of_cons. tauto.
  - split; [discriminate |]. exists 2%Q. split; reflexivity.
Defined.

End DifficultyFacts.

(** ** Grading: fallback and recording *)

Module GradingFacts.
Import QuizAgent Notions Samples.

Lemma track_items_graded items flags tr :
  Forall2 graded items flags ->
  track_items items tr = (Ok tt, tr ++ (VBool <$> flags)).
Proof.
  intros H. revert tr.
  induction H as [|item flag items flags (kvs & -> & Hflag) _ IH]; intros tr.
  - simpl. by rewrite app_nil_r.
  - cbn [track_items]. unfold bind at 1, lift, py_get. rewrite Hflag.
    unfold bind at 1, get_tracker. unfold bind at 1, put_tracker.
    rewrite IH, fmap_cons. by rewrite <- app_assoc.
Qed.

(** A raise inside [track_items] keeps what the loop had appended. *)
Lemma track_items_app_raise good flags bad rest tr :
  Forall2 graded good flags ->
  py_get bad "is_correct" (VBool false) = Raise AttributeError ->
  track_items (good ++ bad :: rest) tr
  = (Raise AttributeError, tr ++ (VBool <$> flags)).
Proof.
  intros H Hbad. revert tr.
  induction H as [|item flag items flags (kvs & -> & Hflag) _ IH]; intros tr.
  - cbn [app track_items]. unfold bind, lift. rewrite Hbad.
    by rewrite app_nil_r.
  - cbn [app track_items]. unfold bind at 1, lift, py_get. rewrite Hflag.
    unfold bind at 1, get_tracker. unfold bind at 1, put_tracker.
    rewrite IH, fmap_cons. by rewrite <- app_assoc.
Qed.

Section WithOracle.
Variable oracle : list grading_item -> reply.

Lemma grade_quiz_raised quiz_data user_answers tr e tr' :
  grade_quiz_try oracle (grading_data quiz_data user_answers) tr
    = (Raise e, tr') ->
  grade_quiz oracle quiz_data user_answers tr
    = (Ok (VList (replicate (length quiz_data) error_result)), tr').
Proof. intros H. unfold grade_quiz, try_catch. by rewrite H. Qed.

(** C10: when the call of the grading service raises, or its content does
    not parse, [grade_quiz] returns one fallback result per question, each
    with is_correct false and the feedback "Error grading this question.",
    and the window is as it was.  When the service answers with a list of
    result objects, that list is returned and one boolean per result has
    been appended to the window. *)
Theorem grade_quiz_fallback_and_recording (quiz_data : list qa_pair)
    (user_answers : list string) (tr : list value) :
  let gd := grading_data quiz_data user_answers in
  ((oracle gd = CallFailed \/ oracle gd = Unparsable) ->
   exists fallback,
     grade_quiz oracle quiz_data user_answers tr = (Ok (VList fallback), tr) /\
     length fallback = length quiz_data /\
     Forall (fun r => r = VDict [("is_correct", VBool false);
                                 ("feedback",
                                  VStr "Error grading this question.")])
            fallback) /\
  (forall kvs items flags,
     oracle gd = Parsed (VDict kvs) ->
     default (VList []) (dict_lookup kvs "results") = VList items ->
     Forall2 graded items flags ->
     grade_quiz oracle quiz_data user_answers tr
       = (Ok (VList items), tr ++ (VBool <$> flags)) /\
     length flags = length items).
Proof.
  intros gd. split.
  - intros Hfail. exists (replicate (length quiz_data) error_result).
    split; [| split].
    + destruct Hfail as [H | H];
        [apply grade_quiz_raised with OpenAIError
        |apply grade_quiz_raised with JSONDecodeError];
        unfold grade_quiz_try; fold gd; by rewrite H.
    + apply length_replicate.
    + apply Forall_forall. by intros r [-> _]%elem_of_replicate.
  - intros kvs items flags Hreply Hres Hitems. split.
    + unfold grade_quiz, try_catch, grade_quiz_try. fold gd. rewrite Hreply.
      unfold bind at 1, lift, py_get. rewrite Hres.
      unfold bind at 1, track_results. unfold bind at 1, lift, py_iter.
      by rewrite (track_items_graded _ _ _ Hitems).
    + symmetry. by eapply Forall2_length.
Qed.

(** Outside the two failures above: a result list with an element that is
    not an object also ends in the fallback, after the results before it
    were recorded. *)
Lemma grade_quiz_bad_item_keeps_prefix quiz_data user_answers tr
    kvs good flags bad rest :
  oracle (grading_data quiz_data user_answers) = Parsed (VDict kvs) ->
  default (VList []) (dict_lookup kvs "results")
    = VList (good ++ bad :: rest) ->
  Forall2 graded good flags ->
  py_get bad "is_correct" (VBool false) = Raise AttributeError ->
  grade_quiz oracle quiz_data user_answers tr
  = (Ok (VList (replicate (length quiz_data) error_result)),
     tr ++ (VBool <$> flags)).
Proof.
  intros Hreply Hres Hgood Hbad. apply grade_quiz_raised with AttributeError.
  unfold grade_quiz_try. rewrite Hreply.
  unfold bind at 1, lift, py_get. rewrite Hres. fold (py_get bad).
  unfold bind at 1, track_results. unfold bind at 1, lift, py_iter.
  by rewrite (track_items_app_raise _ _ _ _ _ Hgood Hbad).
Qed.

End WithOracle.

Lemma grade_quiz_fallback_and_recording_witness :
  (exists fallback,
     grade_quiz (fun _ => Unparsable) two_questions ["a limit"] [VBool true]
       = (Ok (VList fallback), [VBool true]) /\
     length fallback = 2%nat /\
     Forall (fun r => r = VDict [("is_correct", VBool false);
                                 ("feedback",
                                  VStr "Error grading this question.")])
            fallback) /\
  grade_quiz (fun _ => Parsed (VDict [("results", VList two_verdicts)]))
    two_questions ["a limit"] [VBool true]
  = (Ok (VList two_verdicts), [VBool true; VBool true; VBool false]).
Proof.
  split.
  - apply (proj1 (grade_quiz_fallback_and_recording (fun _ => Unparsable)
                    two_questions ["a limit"] [VBool true])).
    right. reflexivity.
  - apply (proj2 (grade_quiz_fallback_and_recording
                    (fun _ => Parsed (VDict [("results", VList two_verdicts)]))
                    two_questions ["a limit"] [VBool true])
             [("results", VList two_verdicts)] two_verdicts [true; false]).
    + reflexivity.
    + reflexivity.
    + repeat constructor; eexists; split; reflexivity.
Defined.

Example grade_quiz_bad_item_example :
  grade_quiz
    (fun _ => Parsed (VDict [("results",
                              VList [VDict [("is_correct", VBool true)];
                                     VStr "n/a"])]))
    two_questions ["a limit"; "a slope"] []
  = (Ok (VList [error_result; error_result]), [VBool true]).
Proof. reflexivity. Qed.

End GradingFacts.

(** ** Per-topic averages *)

Module AggregationFacts.
Import Api Notions Samples.

Lemma scores_of_snoc t ms m :
  scores_of t (ms ++ [m])
  = scores_of t ms ++ (if decide (topic m = t) then [score m] else []).
Proof.
  unfold scores_of. rewrite filter_app, fmap_app. f_equal.
  rewrite filter_cons, filter_nil. by destruct (decide (topic m = t)).
Qed.

Lemma group_scores_snoc ms m :
  group_scores (ms ++ [m]) = group_step (group_scores ms) m.
Proof. unfold group_scores. by rewrite foldl_app. Qed.

Lemma group_scores_lookup ms t :
  group_scores ms !! t = nonempty (scores_of t ms).
Proof.
  induction ms as [|m ms IH] using rev_ind; [done |].
  rewrite group_scores_snoc, scores_of_snoc. unfold group_step.
  destruct (decide (topic m = t)) as [<- | Hne].
  - rewrite lookup_alter_eq. rewrite IH.
    destruct (scores_of (topic m) ms) as [|x v] eqn:E; simpl.
    + by rewrite lookup_insert_eq.
    + by rewrite IH.
  - rewrite lookup_alter_ne by done. rewrite app_nil_r.
    destruct (group_scores ms !! topic m);
      [done | by rewrite lookup_insert_ne].
Qed.

Lemma performance_dict_lookup ms t :
  performance_dict ms !! t = average <$> nonempty (scores_of t ms).
Proof. unfold performance_dict. by rewrite lookup_fmap, group_scores_lookup. Qed.

Lemma foldl_Qplus (acc : Q) (v : list Q) :
  (foldl Qplus acc v == acc + fold_right Qplus 0 v)%Q.
Proof.
  revert acc. induction v as [|x v IH]; intros acc; simpl.
  - ring.
  - rewrite IH. ring.
Qed.

Lemma average_mean (v : list Q) : v <> [] -> (average v == mean v)%Q.
Proof.
  destruct v as [|x v]; [done |]. intros _. unfold average, mean.
  rewrite foldl_Qplus. by rewrite Qplus_0_l.
Qed.

(** Every topic with a record maps to the mean of its scores; the others
    have no entry.  Nothing here looks at the range of a score. *)
Lemma performance_dict_spec ms t :
  match scores_of t ms with
  | [] => performance_dict ms !! t = None
  | v => exists avg, performance_dict ms !! t = Some avg /\ (avg == mean v)%Q
  end.
Proof.
  rewrite performance_dict_lookup.
  destruct (scores_of t ms) as [|x v] eqn:E; [done |].
  exists (average (x :: v)). split; [done |]. by apply average_mean.
Qed.

(** C7: for records with scores in [0,1], each topic that has a record is
    mapped to the arithmetic mean of its scores and a topic without records
    has no entry; the records (algebra 0.8), (algebra 0.6), (geometry 0.4)
    give algebra 0.7 and geometry 0.4 and nothing else; the same records
    always give the same mapping. *)
Theorem performance_dict_mean_per_topic (ms : list metric) :
  Forall (fun m => in_range (score m)) ms ->
  (forall t,
     match scores_of t ms with
     | [] => performance_dict ms !! t = None
     | v => exists avg,
            performance_dict ms !! t = Some avg /\ (avg == mean v)%Q
     end) /\
  Qred <$> performance_dict algebra_geometry
    = {[ "algebra" := 7 # 10; "geometry" := 2 # 5 ]} /\
  (forall ms', ms' = ms -> performance_dict ms' = performance_dict ms).
Proof.
  intros _. split; [apply performance_dict_spec |].
  split; [| by intros ms' ->].
  apply map_eq. intros t. rewrite lookup_fmap, performance_dict_lookup.
  destruct (decide (t = "algebra")) as [-> | Ha]; [done |].
  destruct (decide (t = "geometry")) as [-> | Hg]; [done |].
  rewrite lookup_insert_ne, lookup_singleton_ne by done.
  unfold scores_of, algebra_geometry.
  rewrite !filter_cons, filter_nil; simpl.
  by rewrite !decide_False by done.
Qed.

Lemma performance_dict_mean_per_topic_witness :
  (forall t,
     match scores_of t algebra_geometry with
     | [] => performance_dict algebra_geometry !! t = None
     | v => exists avg,
            performance_dict algebra_geometry !! t = Some avg /\
            (avg == mean v)%Q
     end) /\
  Qred <$> performance_dict algebra_geometry
    = {[ "algebra" := 7 # 10; "geometry" := 2 # 5 ]} /\
  (forall ms', ms' = algebra_geometry ->
               performance_dict ms' = performance_dict algebra_geometry).
Proof.
  apply (performance_dict_mean_per_topic algebra_geometry).
  unfold algebra_geometry, in_range. repeat constructor; simpl; discriminate.
Defined.

(** C6, as the code behaves: the aggregation checks no range and signals
    nothing; a record's score, inside [0,1] or not, is one of the scores
    whose mean its topic is mapped to. *)
Theorem scores_enter_mean_unchecked (ms : list metric) (m : metric) :
  m ∈ ms ->
  score m ∈ scores_of (topic m) ms /\
  exists avg, performance_dict ms !! topic m = Some avg /\
              (avg == mean (scores_of (topic m) ms))%Q.
Proof.
  intros Hm.
  assert (score m ∈ scores_of (topic m) ms) as Hin.
  { unfold scores_of. apply list_elem_of_fmap. exists m. split; [done |].
    by apply list_elem_of_filter. }
  split; [done |].
  pose proof (performance_dict_spec ms (topic m)) as H.
  destruct (scores_of (topic m) ms); [by apply elem_of_nil in Hin | done].
Qed.

Lemma scores_enter_mean_unchecked_witness :
  (1.5 : Q) ∈ scores_of "algebra" with_bad_score /\
  exists avg, performance_dict with_bad_score !! "algebra" = Some avg /\
              (avg == mean (scores_of "algebra" with_bad_score))%Q.
Proof.
  apply (scores_enter_mean_unchecked with_bad_score
           {| topic := "algebra"; score := 1.5 |}).
  unfold with_bad_score. rewrite !elem_of_cons. tauto.
Defined.

End AggregationFacts.

(** ** Revision planning *)

Module PlannerFacts.
Import PlannerAgent Notions.

Section WithServices.
Variable oracle : prompt -> reply.
Variable fromisoformat : string -> option datetime.
Variable isoformat : datetime -> string.
Variable str_exn : exn -> string.
Variable clock : nat -> Z.

Lemma stamp_dates_spec start i items items' :
  stamp_dates isoformat start i items = Ok items' ->
  length items' = length items /\
  forall j x', items' !! j = Some x' ->
    exists kvs, items !! j = Some (VDict kvs) /\
      x' = VDict (dict_store kvs "date"
                    (VStr (isoformat (add_days start (Z.of_nat (i + j)))))).
Proof.
  revert i items'. induction items as [|x items IH]; intros i items' H.
  - injection H as <-. split; [done |]. intros j x' Hj. by destruct j.
  - cbn [stamp_dates] in H.
    destruct x as [| | | | |kvs]; try discriminate H. cbn in H.
    destruct (stamp_dates isoformat start (S i) items) as [rest'|] eqn:E;
      [| discriminate H].
    injection H as <-. destruct (IH _ _ E) as [Hlen Hrest].
    split; [simpl; by rewrite Hlen |].
    intros [|j] x' Hj; simpl in Hj.
    + injection Hj as <-. exists kvs. by rewrite Nat.add_0_r.
    + destruct (Hrest _ _ Hj) as (kvs' & Hk & ->). exists kvs'.
      split; [done |]. by rewrite Nat.add_succ_r.
Qed.

(** How the [try] block can end well: the service answered [data], its
    "plan" entry could be iterated and every element stamped. *)
Lemma try_block_ok pr exam_dt k pd :
  create_revision_plan_try oracle isoformat clock pr exam_dt k = Ok pd ->
  days_until_exam pd = p_days pr /\
  exists data plan0 items items',
    oracle pr = Parsed data /\
    py_get data "plan" (VList []) = Ok plan0 /\
    py_iter plan0 = Ok items /\
    stamp_dates isoformat (now clock k) 0 items = Ok items' /\
    plan pd = stamped plan0 items'.
Proof.
  unfold create_revision_plan_try.
  destruct (oracle pr) as [| |data] eqn:Hreply; try discriminate.
  destruct (py_get data "plan" (VList [])) as [plan0|] eqn:Hget;
    [| discriminate].
  cbn [obind].
  destruct (py_iter plan0) as [items|] eqn:Hit; [| discriminate].
  cbn [obind].
  destruct (stamp_dates _ _ _ items) as [items'|] eqn:Hst; [| discriminate].
  cbn [obind]. destruct (py_get data "summary" (VStr "")); [| discriminate].
  cbn [obind]. intros [= <-]. split; [done |].
  by exists data, plan0, items, items'.
Qed.

(** Once the exam date subtracts from the clock, the method returns a
    record: either the one of the [try] block or the empty plan of the
    handler, both with the clamped day count. *)
Lemma create_revision_plan_returns context exam_date topics perf
    exam_dt k raw_days :
  exam_datetime fromisoformat clock exam_date = (exam_dt, k) ->
  sub_days exam_dt (now clock k) = Ok raw_days ->
  exists pd,
    create_revision_plan oracle fromisoformat isoformat str_exn clock
      context exam_date topics perf = Ok pd /\
    days_until_exam pd = Z.max 1 raw_days /\
    (plan pd = VList [] \/
     exists pr, create_revision_plan_try oracle isoformat clock pr exam_dt
                  (S k) = Ok pd).
Proof.
  intros Hexam Hsub. unfold create_revision_plan.
  rewrite Hexam, Hsub. cbn [obind].
  match goal with
  | |- context [try_except ?body _] => destruct body as [pd|e] eqn:E
  end; cbn [try_except].
  - exists pd. split; [done |]. split; [| right; by eexists].
    by destruct (try_block_ok _ _ _ _ E) as [-> _].
  - eexists. split; [done |]. split; [done | by left].
Qed.

Lemma create_revision_plan_ok context exam_date topics perf pd :
  create_revision_plan oracle fromisoformat isoformat str_exn clock
    context exam_date topics perf = Ok pd ->
  plan pd = VList [] \/
  exists pr exam_dt,
    create_revision_plan_try oracle isoformat clock pr exam_dt
      (S (snd (exam_datetime fromisoformat clock exam_date))) = Ok pd.
Proof.
  intros Hrun.
  destruct (exam_datetime fromisoformat clock exam_date) as [exam_dt k] eqn:Hexam.
  destruct (sub_days exam_dt (now clock k)) as [raw|e] eqn:Hsub.
  - destruct (create_revision_plan_returns context exam_date topics perf
                _ _ _ Hexam Hsub) as (pd' & Hrun' & _ & Hcases).
    rewrite Hrun in Hrun'. injection Hrun' as <-.
    destruct Hcases as [? | [pr ?]]; [by left | right; by exists pr, exam_dt].
  - unfold create_revision_plan in Hrun. by rewrite Hexam, Hsub in Hrun.
Qed.

(** C5, as the code behaves: an exam date less than one day ahead (a raw
    horizon below 1) raises no error; the day count is clamped to 1 and a
    plan record carrying [days_until_exam = 1] is returned. *)
Theorem short_horizon_is_clamped (context : string)
    (exam_date : option string) (topics : option (list string))
    (current_performance : option (gmap string Q))
    (exam_dt : datetime) (k : nat) (raw_days : Z) :
  exam_datetime fromisoformat clock exam_date = (exam_dt, k) ->
  sub_days exam_dt (now clock k) = Ok raw_days ->
  raw_days < 1 ->
  exists pd,
    create_revision_plan oracle fromisoformat isoformat str_exn clock
      context exam_date topics current_performance = Ok pd /\
    days_until_exam pd = 1.
Proof.
  intros Hexam Hsub Hraw.
  destruct (create_revision_plan_returns context exam_date topics
              current_performance _ _ _ Hexam Hsub) as (pd & Hrun & Hd & _).
  exists pd. split; [done |]. lia.
Qed.

(** C8, as the code behaves: with an empty topic list and a horizon of at
    least one day the method does not fail; it returns the very record it
    returns when no topic list is given (the prompt then asks for all the
    topics of the material), with the horizon as its day count. *)
Theorem empty_topics_same_as_none (context : string)
    (exam_date : option string)
    (current_performance : option (gmap string Q))
    (exam_dt : datetime) (k : nat) (horizon : Z) :
  exam_datetime fromisoformat clock exam_date = (exam_dt, k) ->
  sub_days exam_dt (now clock k) = Ok horizon ->
  1 <= horizon ->
  exists pd,
    create_revision_plan oracle fromisoformat isoformat str_exn clock
      context exam_date (Some []) current_performance = Ok pd /\
    create_revision_plan oracle fromisoformat isoformat str_exn clock
      context exam_date None current_performance = Ok pd /\
    days_until_exam pd = horizon.
Proof.
  intros Hexam Hsub Hpos.
  destruct (create_revision_plan_returns context exam_date (Some [])
              current_performance _ _ _ Hexam Hsub) as (pd & Hrun & Hd & _).
  exists pd. split; [done |]. split; [exact Hrun | lia].
Qed.

(** C9, as the code behaves: in a returned plan the i-th entry (counting
    from 0) carries the date of the clock reading taken after the service
    answered plus i days, so consecutive dates are one day apart; the
    entries are as many as the service supplied and keep its "day" values. *)
Theorem plan_dates_follow_creation_time (context : string)
    (exam_date : option string) (topics : option (list string))
    (current_performance : option (gmap string Q))
    (pd : plan_data) (items : list value) :
  create_revision_plan oracle fromisoformat isoformat str_exn clock
    context exam_date topics current_performance = Ok pd ->
  plan pd = VList items ->
  let start_date :=
    now clock (S (snd (exam_datetime fromisoformat clock exam_date))) in
  (forall i item, items !! i = Some item ->
     py_get item "date" VNone
     = Ok (VStr (isoformat (add_days start_date (Z.of_nat i))))) /\
  (forall i : nat,
     dt_us (add_days start_date (Z.of_nat (S i)))
     = dt_us (add_days start_date (Z.of_nat i)) + us_per_day) /\
  (items = [] \/
   exists pr data items0,
     oracle pr = Parsed data /\
     py_get data "plan" (VList []) = Ok (VList items0) /\
     length items = length items0 /\
     forall i item, items !! i = Some item ->
       exists item0, items0 !! i = Some item0 /\
         py_get item "day" VNone = py_get item0 "day" VNone).
Proof.
  intros Hrun Hplan start_date.
  assert (items = [] \/
          exists pr data items0,
            oracle pr = Parsed data /\
            py_get data "plan" (VList []) = Ok (VList items0) /\
            stamp_dates isoformat start_date 0 items0 = Ok items)
    as [-> | (pr & data & items0 & Hreply & Hget & Hst)].
  { destruct (create_revision_plan_ok _ _ _ _ _ Hrun)
      as [Hnil | (pr & exam_dt & Htry)].
    - left. congruence.
    - destruct (try_block_ok _ _ _ _ Htry)
        as (_ & data & plan0 & its & its' & Hreply & Hget & Hit & Hst & Hpd).
      right. exists pr, data, its. rewrite Hplan in Hpd.
      destruct plan0; try discriminate Hpd.
      simpl in Hit, Hpd. injection Hit as ->. injection Hpd as ->.
      done. }
  - split; [intros i item Hi; by destruct i |].
    split; [intros i; unfold add_days; simpl; lia | by left].
  - destruct (stamp_dates_spec _ _ _ _ Hst) as [Hlen Hall].
    split; [| split].
    + intros i item Hi. destruct (Hall _ _ Hi) as (kvs & _ & ->).
      simpl. by rewrite dict_lookup_store_eq.
    + intros i. unfold add_days. simpl. lia.
    + right. exists pr, data, items0. split; [done |]. split; [done |].
      split; [done |].
      intros i item Hi. destruct (Hall _ _ Hi) as (kvs & Hi0 & ->).
      exists (VDict kvs). split; [done |]. simpl.
      by rewrite dict_lookup_store_ne.
Qed.

End WithServices.

End PlannerFacts.

(** ** Concrete runs *)

Module Scenarios.
Import PlannerAgent Notions Samples.

(** C5 fails on the code: the exam is at the very time of the request, so
    the raw horizon is 0, and a plan comes back with the day count 1. *)
Lemma zero_horizon_gets_a_plan :
  sub_days (naive 0) (now sample_clock 0) = Ok 0 /\
  run (Some "1970-01-01T00:00:00") None None
  = Ok (sample_result "1970-01-01" 1).
Proof. split; reflexivity. Qed.

Lemma short_horizon_is_clamped_witness :
  exists pd, run (Some "1970-01-01T00:00:00") None None = Ok pd /\
             days_until_exam pd = 1.
Proof.
  apply (PlannerFacts.short_horizon_is_clamped sample_oracle
           sample_fromisoformat sample_isoformat sample_str_exn sample_clock
           "Limits and series." (Some "1970-01-01T00:00:00") None None
           (naive 0) 0%nat 0).
  - reflexivity.
  - reflexivity.
  - lia.
Defined.

(** C8 fails on the code: an empty topic list and five days to go give the
    two entries of the service, with topics and minutes, not five empty
    days. *)
Lemma empty_topics_plan_not_degenerate :
  run (Some "1970-01-06T00:00:00") (Some []) None
  = Ok (sample_result "1970-01-06" 5) /\
  ~ degenerate_plan (sample_result "1970-01-06" 5) 5.
Proof.
  split; [reflexivity |].
  intros (items & Hplan & Hlen & _). simpl in Hplan.
  injection Hplan as <-. simpl in Hlen. lia.
Qed.

Lemma empty_topics_same_as_none_witness :
  exists pd,
    run (Some "1970-01-06T00:00:00") (Some []) None = Ok pd /\
    run (Some "1970-01-06T00:00:00") None None = Ok pd /\
    days_until_exam pd = 5.
Proof.
  apply (PlannerFacts.empty_topics_same_as_none sample_oracle
           sample_fromisoformat sample_isoformat sample_str_exn sample_clock
           "Limits and series." (Some "1970-01-06T00:00:00") None
           (naive (5 * us_per_day)) 0%nat 5).
  - reflexivity.
  - reflexivity.
  - lia.
Defined.

(** C9 fails on the code: with two days to go the returned plan has two
    entries, numbered 5 and 2 as the service numbered them. *)
Lemma oracle_day_numbers_are_kept :
  run (Some "1970-01-03T00:00:00") None None
  = Ok (sample_result "1970-01-03" 2) /\
  ~ days_numbered (sample_result "1970-01-03" 2).
Proof.
  split; [reflexivity |].
  intros (items & Hplan & _ & Hday). simpl in Hplan. injection Hplan as <-.
  specialize (Hday 0%nat _ eq_refl). discriminate Hday.
Qed.

Lemma plan_dates_follow_creation_time_witness :
  (forall i item, sample_days !! i = Some item ->
     py_get item "date" VNone
     = Ok (VStr (sample_isoformat
                   (add_days (now sample_clock 1) (Z.of_nat i))))) /\
  py_get (VDict [("day", VNum 2); ("topics", VList [VStr "Series"]);
                 ("duration_minutes", VNum 45); ("focus", VStr "medium");
                 ("date", VStr "1970-01-02")]) "date" VNone
  = Ok (VStr "1970-01-02").
Proof.
  pose proof (PlannerFacts.plan_dates_follow_creation_time sample_oracle
                sample_fromisoformat sample_isoformat sample_str_exn
                sample_clock "Limits and series."
                (Some "1970-01-03T00:00:00") None None
                (sample_result "1970-01-03" 2) sample_days
                eq_refl eq_refl) as [Hdates _].
  split; [exact Hdates |].
  exact (Hdates 1%nat _ eq_refl).
Defined.

(** C6 fails on the code: a score of 1.5 is averaged with 0.9 into 1.2 for
    its topic, and the endpoint goes on to return a plan. *)
Lemma bad_score_is_averaged_silently :
  Exists (fun m => ~ in_range (Api.score m))
         with_bad_score /\
  Qred <$> Api.performance_dict with_bad_score
    = {[ "algebra" := 6 # 5 ]} /\
  Api.create_revision_plan sample_oracle sample_fromisoformat
    sample_isoformat sample_str_exn sample_clock "Limits and series."
    with_bad_score
    {| Api.req_exam_date := Some "1970-01-06T00:00:00";
       Api.req_topics := None |}
  = Ok (sample_result "1970-01-06" 5).
Proof.
  split; [| split].
  - apply Exists_cons_tl, Exists_cons_hd. simpl.
    intros [_ H]. by apply H.
  - by vm_compute.
  - by vm_compute.
Qed.

End Scenarios.

(** ** The accuracy window across calls *)

Module WindowFacts.
Import QuizAgent Notions MoreNotions Samples.

Lemma py_sum_from_summable acc l :
  forallb summable l = true ->
  exists q, py_sum_from acc l = Ok q /\ (q == acc + total l)%Q.
Proof.
  revert acc. induction l as [|x l IH]; intros acc H; simpl in *.
  - exists acc. split; [done |]. ring.
  - apply andb_true_iff in H as [Hx Hl].
    destruct x as [| b | q0 | | |]; try discriminate Hx; simpl.
    + destruct (IH (acc + (if b then 1 else 0))%Q Hl) as (q & -> & Hq).
      exists q. split; [done |]. rewrite Hq. destruct b; ring.
    + destruct (IH (acc + q0)%Q Hl) as (q & -> & Hq).
      exists q. split; [done |]. rewrite Hq. ring.
Qed.

Lemma py_sum_from_not_summable acc l :
  forallb summable l = false -> py_sum_from acc l = Raise TypeError.
Proof.
  revert acc. induction l as [|x l IH]; intros acc H; simpl in *.
  - discriminate.
  - destruct x as [| b | q0 | | |]; simpl in *; try done; by apply IH.
Qed.

Lemma get_next_difficulty_nonempty current tr :
  tr <> [] ->
  get_next_difficulty current tr
  = match py_sum tr with
    | Ok sum =>
        (Ok (next_level (sum / inject_Z (Z.of_nat (length tr))) current), [])
    | Raise e => (Raise e, tr)
    end.
Proof.
  intros Hne. unfold get_next_difficulty, bind, get_tracker, lift.
  destruct tr as [|x tr']; [done |]. by destruct (py_sum (x :: tr')).
Qed.

Lemma total_flags flags :
  (total (VBool <$> flags) == inject_Z (Z.of_nat (count_true flags)))%Q.
Proof.
  unfold count_true. induction flags as [|b flags IH]; [reflexivity |].
  rewrite fmap_cons.
  change (total (VBool b :: (VBool <$> flags)))
    with (amount (VBool b) + total (VBool <$> flags))%Q.
  rewrite IH, filter_cons. destruct b.
  - rewrite decide_True by done. cbn [length amount].
    rewrite Nat2Z.inj_succ, <- Z.add_1_l, inject_Z_plus. reflexivity.
  - rewrite decide_False by done. cbn [amount]. ring.
Qed.

Lemma window_of_flags_score flags :
  flags <> [] ->
  has_score (VBool <$> flags)
    (inject_Z (Z.of_nat (count_true flags))
     / inject_Z (Z.of_nat (length flags))).
Proof.
  intros Hne. split; [by destruct flags |].
  destruct (py_sum_from_summable 0 (VBool <$> flags)) as (q & Hq & Hsum).
  { clear. by induction flags. }
  exists q. split; [exact Hq |].
  rewrite Hsum, total_flags, length_fmap. by rewrite Qplus_0_l.
Qed.

Lemma track_items_extends items tr :
  exists o ext, track_items items tr = (o, tr ++ ext).
Proof.
  revert tr. induction items as [|item items IH]; intros tr.
  - exists (Ok tt), []. by rewrite app_nil_r.
  - cbn [track_items]. unfold bind at 1, lift.
    destruct (py_get item "is_correct" (VBool false)) as [c|e].
    + unfold bind at 1, get_tracker. unfold bind at 1, put_tracker.
      destruct (IH (tr ++ [c])) as (o & ext & ->).
      exists o, (c :: ext). by rewrite <- app_assoc.
    + exists (Raise e), []. by rewrite app_nil_r.
Qed.

(** X1.  [grade_quiz] never raises and never takes anything out of the
    window: it returns the fallback list or the "results" entry of the
    answer, and the window it leaves starts with the window it found. *)
Theorem grade_quiz_returns_and_keeps_window
    (oracle : list grading_item -> reply) (quiz_data : list qa_pair)
    (user_answers : list string) (tr : list value) :
  exists v ext,
    grade_quiz oracle quiz_data user_answers tr = (Ok v, tr ++ ext) /\
    (v = VList (replicate (length quiz_data) error_result) \/
     exists data,
       oracle (grading_data quiz_data user_answers) = Parsed data /\
       py_get data "results" (VList []) = Ok v).
Proof.
  unfold grade_quiz, try_catch, grade_quiz_try.
  destruct (oracle (grading_data quiz_data user_answers)) as [| |data] eqn:E.
  - eexists _, []. rewrite app_nil_r. split; [done | by left].
  - eexists _, []. rewrite app_nil_r. split; [done | by left].
  - unfold bind at 1, lift.
    destruct (py_get data "results" (VList [])) as [rs|e] eqn:Hget.
    + unfold bind at 1, track_results. unfold bind at 1, lift.
      destruct (py_iter rs) as [items|e].
      * destruct (track_items_extends items tr) as ([[]|e] & ext & ->).
        -- exists rs, ext. split; [done |]. right. by exists data.
        -- eexists _, ext. split; [done | by left].
      * eexists _, []. rewrite app_nil_r. split; [done | by left].
    + eexists _, []. rewrite app_nil_r. split; [done | by left].
Qed.

(** X2.  A window holding anything but booleans and numbers is stuck:
    [get_next_difficulty] raises TypeError before it clears the window, so
    the window is as before and the next call meets it again. *)
Theorem unsummable_window_is_stuck (current : string) (tr : list value) :
  forallb summable tr = false ->
  get_next_difficulty current tr = (Raise TypeError, tr).
Proof.
  intros H. rewrite get_next_difficulty_nonempty by (by destruct tr).
  unfold py_sum. by rewrite py_sum_from_not_summable.
Qed.

Lemma unsummable_window_is_stuck_witness :
  get_next_difficulty "Easy" [VBool true; VStr "yes"]
    = (Raise TypeError, [VBool true; VStr "yes"]).
Proof.
  apply (unsummable_window_is_stuck "Easy" [VBool true; VStr "yes"]).
  reflexivity.
Defined.

Lemma recorded_flags_graded (flags : list bool) :
  Forall2 graded ((fun b => VDict [("is_correct", VBool b)]) <$> flags) flags.
Proof.
  induction flags as [|b flags IH]; [constructor |].
  rewrite fmap_cons. constructor; [| exact IH].
  eexists. split; reflexivity.
Qed.

Lemma decision_on_flags current (flags : list bool) :
  flags <> [] ->
  get_next_difficulty current (VBool <$> flags)
  = (Ok (next_level
           (inject_Z (Z.of_nat (count_true flags))
            / inject_Z (Z.of_nat (length flags)))
           current),
     []).
Proof.
  intros Hne. apply DifficultyFacts.get_next_difficulty_scored.
  by apply window_of_flags_score.
Qed.

(** C3: the window is consumed once.  A fresh tracker has no data and the
    call answers "Easy".  After a batch of outcomes is recorded, the call
    decides on the number of true outcomes divided by the number of
    outcomes and clears the window, so the next call without new records
    finds no data and answers "Easy" again; for the outcomes true, false,
    true that quotient is 2/3. *)
Theorem window_consumed_once (current : string) (flags : list bool) :
  let batch := VList ((fun b => VDict [("is_correct", VBool b)]) <$> flags) in
  let score := (inject_Z (Z.of_nat (count_true flags))
                / inject_Z (Z.of_nat (length flags)))%Q in
  flags <> [] ->
  get_next_difficulty current init = (Ok "Easy", []) /\
  track_results batch init = (Ok tt, VBool <$> flags) /\
  get_next_difficulty current (VBool <$> flags)
    = (Ok (next_level score current), []) /\
  (track_results batch ;;;
   first <- get_next_difficulty current ;;
   second <- get_next_difficulty current ;;
   ret (first, second))%agent init
    = (Ok (next_level score current, "Easy"), []) /\
  (inject_Z (Z.of_nat (count_true [true; false; true]))
   / inject_Z (Z.of_nat (length [true; false; true])) == 2 # 3)%Q /\
  get_next_difficulty current (VBool <$> [true; false; true])
    = (Ok (next_level (2 # 3) current), []).
Proof.
  intros batch score Hne.
  assert (track_results batch init = (Ok tt, VBool <$> flags)) as Htrack.
  { unfold track_results, batch. unfold bind, lift, py_iter.
    by rewrite (GradingFacts.track_items_graded _ _ _
                  (recorded_flags_graded flags)). }
  pose proof (decision_on_flags current flags Hne) as Hcall. fold score in Hcall.
  split; [done |]. split; [exact Htrack |]. split; [exact Hcall |].
  split; [| split; [reflexivity |]].
  - unfold bind at 1. rewrite Htrack. unfold bind at 1. rewrite Hcall.
    reflexivity.
  - apply DifficultyFacts.get_next_difficulty_scored.
    split; [discriminate |]. exists 2%Q. split; reflexivity.
Qed.

Lemma window_consumed_once_witness :
  get_next_difficulty "Medium" init = (Ok "Easy", []) /\
  track_results
    (VList ((fun b => VDict [("is_correct", VBool b)]) <$> [true; true; true]))
    init = (Ok tt, VBool <$> [true; true; true]) /\
  get_next_difficulty "Medium" (VBool <$> [true; true; true])
    = (Ok (next_level
             (inject_Z (Z.of_nat (count_true [true; true; true]))
              / inject_Z (Z.of_nat (length [true; true; true])))
             "Medium"), []) /\
  (track_results
     (VList ((fun b => VDict [("is_correct", VBool b)]) <$> [true; true; true]))
   ;;;
   first <- get_next_difficulty "Medium" ;;
   second <- get_next_difficulty "Medium" ;;
   ret (first, second))%agent init
    = (Ok (next_level
             (inject_Z (Z.of_nat (count_true [true; true; true]))
              / inject_Z (Z.of_nat (length [true; true; true])))
             "Medium", "Easy"), []) /\
  (inject_Z (Z.of_nat (count_true [true; false; true]))
   / inject_Z (Z.of_nat (length [true; false; true])) == 2 # 3)%Q /\
  get_next_difficulty "Medium" (VBool <$> [true; false; true])
    = (Ok (next_level (2 # 3) "Medium"), []).
Proof.
  apply (window_consumed_once "Medium" [true; true; true]). discriminate.
Defined.

(** X3.  For a window of booleans the decision does not depend on their
    order: the same outcomes in another order get the same answer and
    leave the same (empty) window. *)
Theorem decision_ignores_order (current : string) (flags flags' : list bool) :
  Permutation flags flags' ->
  get_next_difficulty current (VBool <$> flags)
  = get_next_difficulty current (VBool <$> flags').
Proof.
  intros Hp. destruct flags as [|b flags0].
  - by apply Permutation_nil in Hp as ->.
  - assert (flags' <> []) as Hne'
      by (intros ->; by apply Permutation_sym, Permutation_nil in Hp).
    rewrite !decision_on_flags by done.
    assert (count_true (b :: flags0) = count_true flags') as ->
      by (unfold count_true; by rewrite Hp).
    by rewrite (Permutation_length Hp).
Qed.

Lemma decision_ignores_order_witness :
  get_next_difficulty "Medium" (VBool <$> [true; false; false])
  = get_next_difficulty "Medium" (VBool <$> [false; false; true]).
Proof.
  apply decision_ignores_order.
  apply (Permutation_cons_append [false; false] true).
Defined.

Lemma grade_quiz_graded (oracle : list grading_item -> reply)
    quiz_data user_answers tr kvs items flags :
  oracle (grading_data quiz_data user_answers) = Parsed (VDict kvs) ->
  default (VList []) (dict_lookup kvs "results") = VList items ->
  Forall2 graded items flags ->
  grade_quiz oracle quiz_data user_answers tr
  = (Ok (VList items), tr ++ (VBool <$> flags)).
Proof.
  intros Hreply Hres Hitems.
  unfold grade_quiz, try_catch, grade_quiz_try. rewrite Hreply.
  unfold bind at 1, lift, py_get. rewrite Hres.
  unfold bind at 1, track_results. unfold bind at 1, lift, py_iter.
  by rewrite (GradingFacts.track_items_graded _ _ _ Hitems).
Qed.

(** X4.  The window runs across gradings: after two graded quizzes on a
    fresh agent the decision is taken on the share of correct answers of
    both quizzes together, and only then is the window cleared. *)
Theorem gradings_accumulate (oracle : list grading_item -> reply)
    (current : string)
    (quiz1 quiz2 : list qa_pair) (answers1 answers2 : list string)
    (kvs1 kvs2 : list (string * value)) (items1 items2 : list value)
    (flags1 flags2 : list bool) :
  oracle (grading_data quiz1 answers1) = Parsed (VDict kvs1) ->
  default (VList []) (dict_lookup kvs1 "results") = VList items1 ->
  Forall2 graded items1 flags1 ->
  oracle (grading_data quiz2 answers2) = Parsed (VDict kvs2) ->
  default (VList []) (dict_lookup kvs2 "results") = VList items2 ->
  Forall2 graded items2 flags2 ->
  flags1 ++ flags2 <> [] ->
  (grade_quiz oracle quiz1 answers1 ;;;
   grade_quiz oracle quiz2 answers2 ;;;
   get_next_difficulty current)%agent init
  = (Ok (next_level
           (inject_Z (Z.of_nat (count_true (flags1 ++ flags2)))
            / inject_Z (Z.of_nat (length (flags1 ++ flags2))))
           current),
     []).
Proof.
  intros Hr1 Hres1 Hg1 Hr2 Hres2 Hg2 Hne.
  unfold bind at 1. rewrite (grade_quiz_graded _ _ _ _ _ _ _ Hr1 Hres1 Hg1).
  unfold bind at 1. rewrite (grade_quiz_graded _ _ _ _ _ _ _ Hr2 Hres2 Hg2).
  unfold init. rewrite app_nil_l, <- fmap_app.
  apply DifficultyFacts.get_next_difficulty_scored.
  by apply window_of_flags_score.
Qed.

Lemma gradings_accumulate_witness :
  (grade_quiz (fun _ => Parsed (VDict [("results", VList two_verdicts)]))
     two_questions ["a limit"] ;;;
   grade_quiz (fun _ => Parsed (VDict [("results", VList two_verdicts)]))
     two_questions [] ;;;
   get_next_difficulty "Medium")%agent init
  = (Ok (next_level
           (inject_Z (Z.of_nat (count_true ([true; false] ++ [true; false])))
            / inject_Z (Z.of_nat (length ([true; false] ++ [true; false]))))
           "Medium"),
     []).
Proof.
  apply (gradings_accumulate
           (fun _ => Parsed (VDict [("results", VList two_verdicts)]))
           "Medium" two_questions two_questions ["a limit"] []
           [("results", VList two_verdicts)] [("results", VList two_verdicts)]
           two_verdicts two_verdicts [true; false] [true; false]).
  - reflexivity.
  - reflexivity.
  - repeat constructor; eexists; split; reflexivity.
  - reflexivity.
  - reflexivity.
  - repeat constructor; eexists; split; reflexivity.
  - discriminate.
Defined.

(** X5.  The decision compares the label only with "Easy" (when going up)
    and with "Hard" (when going down): above 0.8 every label but "Easy"
    becomes "Hard", below 0.5 every label but "Hard" becomes "Easy", so the
    answer is "Easy", "Medium", "Hard" or the label as given. *)
Theorem label_only_compared_with_ends (current : string) (tr : list value)
    (score : Q) :
  has_score tr score ->
  exists next,
    get_next_difficulty current tr = (Ok next, []) /\
    (next = "Easy" \/ next = "Medium" \/ next = "Hard" \/ next = current) /\
    ((0.8 < score)%Q -> current <> "Easy" -> next = "Hard") /\
    ((score < 0.5)%Q -> current <> "Hard" -> next = "Easy").
Proof.
  intros Hs. exists (next_level score current).
  split; [by apply DifficultyFacts.get_next_difficulty_scored |].
  split; [| split].
  - unfold next_level.
    destruct (gtb score 0.8), (ltb score 0.5),
      (String.eqb current "Easy"), (String.eqb current "Hard"); tauto.
  - intros H Hne. rewrite (DifficultyFacts.next_level_up _ _ H).
    apply String.eqb_neq in Hne. by rewrite Hne.
  - intros H Hne. rewrite (DifficultyFacts.next_level_down _ _ H).
    apply String.eqb_neq in Hne. by rewrite Hne.
Qed.

Lemma label_only_compared_with_ends_witness :
  exists next,
    get_next_difficulty "easy" [VBool true; VBool true] = (Ok next, []) /\
    (next = "Easy" \/ next = "Medium" \/ next = "Hard" \/ next = "easy") /\
    ((0.8 < 1)%Q -> "easy" <> "Easy" -> next = "Hard") /\
    ((1 < 0.5)%Q -> "easy" <> "Hard" -> next = "Easy").
Proof.
  apply (label_only_compared_with_ends "easy" [VBool true; VBool true] 1).
  split; [discriminate |]. exists 2%Q. split; reflexivity.
Defined.

(** X6.  The grading request has one item per question, in order; a
    question without an answer gets the empty answer, and answers beyond
    the last question never reach the service. *)
Theorem grading_data_pairs (quiz_data : list qa_pair)
    (user_answers : list string) :
  length (grading_data quiz_data user_answers) = length quiz_data /\
  (forall i item, grading_data quiz_data user_answers !! i = Some item ->
     exists pair, quiz_data !! i = Some pair /\
       question item = q pair /\ correct_answer item = a pair /\
       user_answer item = default EmptyString (user_answers !! i)) /\
  (forall surplus,
     length quiz_data <= length user_answers ->
     grading_data quiz_data (user_answers ++ surplus)
     = grading_data quiz_data user_answers)%nat.
Proof.
  unfold grading_data. split; [apply length_imap |]. split.
  - intros i item Hi. rewrite list_lookup_imap in Hi.
    destruct (quiz_data !! i) as [pair|]; [| discriminate].
    injection Hi as <-. by exists pair.
  - intros surplus Hlen. apply list_eq. intros i.
    rewrite !list_lookup_imap.
    destruct (quiz_data !! i) as [pair|] eqn:Hi; [| done]. simpl.
    apply lookup_lt_Some in Hi.
    by rewrite lookup_app_l by lia.
Qed.

Lemma grading_data_pairs_witness :
  user_answer <$> grading_data two_questions ["a limit"]
    = ["a limit"; EmptyString] /\
  grading_data two_questions (["a limit"; "a slope"] ++ ["unasked"])
    = grading_data two_questions ["a limit"; "a slope"].
Proof.
  split; [reflexivity |].
  apply (proj2 (proj2 (grading_data_pairs two_questions
                         ["a limit"; "a slope"]))).
  simpl. lia.
Defined.

End WindowFacts.

(** ** More on revision planning *)

Module PlanningFacts.
Import PlannerAgent Notions Samples MoreSamples.

Lemma substring_prefix_twice (n m : nat) (s : string) :
  (n <= m)%nat -> substring 0 n (substring 0 m s) = substring 0 n s.
Proof.
  revert n m. induction s as [|c s IH]; intros n m Hle.
  - destruct m; by destruct n.
  - destruct n as [|n]; [by destruct m |].
    destruct m as [|m]; [lia |]. simpl. f_equal. apply IH. lia.
Qed.

Section WithServices.
Variable oracle : prompt -> reply.
Variable fromisoformat : string -> option datetime.
Variable isoformat : datetime -> string.
Variable str_exn : exn -> string.
Variable clock : nat -> Z.

Lemma stamp_dates_bad_entry start i items :
  Exists (fun x => forall kvs, x <> VDict kvs) items ->
  stamp_dates isoformat start i items = Raise TypeError.
Proof.
  intros H. revert i. induction H as [x items Hx | x items _ IH]; intros i.
  - cbn [stamp_dates]. destruct x; try done. by destruct (Hx kvs).
  - cbn [stamp_dates]. destruct x; try done. cbn. by rewrite IH.
Qed.

(** X7.  An exam date that parses to a timezone-aware value (as one ending
    in "Z" does once it is rewritten to "+00:00") cannot be subtracted from
    the naive clock reading: the method raises TypeError, outside its
    [try], whatever the service would have answered. *)
Theorem aware_exam_date_raises (context s : string)
    (topics : option (list string))
    (current_performance : option (gmap string Q))
    (exam_dt : datetime) (offset : Z) :
  s <> EmptyString ->
  fromisoformat (replace_Z s) = Some exam_dt ->
  dt_offset exam_dt = Some offset ->
  create_revision_plan oracle fromisoformat isoformat str_exn clock
    context (Some s) topics current_performance = Raise TypeError.
Proof.
  intros Hs Hparse Hoff. unfold create_revision_plan, exam_datetime.
  destruct s as [|c s]; [done |]. rewrite Hparse.
  unfold sub_days, now. rewrite Hoff. reflexivity.
Qed.

(** X8.  Without a usable exam date (none, an empty one, or one that does
    not parse) the exam is put 30 days after the first clock reading; the
    day count is taken against a second reading, so it is 30 only if the
    clock has not moved and 29 as soon as it has (by up to a day). *)
Theorem default_exam_date_counts_29_days (context : string)
    (exam_date : option string) (topics : option (list string))
    (current_performance : option (gmap string Q)) :
  (exam_date = None \/ exam_date = Some EmptyString \/
   exists s, exam_date = Some s /\ fromisoformat (replace_Z s) = None) ->
  clock 0%nat <= clock 1%nat <= clock 0%nat + us_per_day ->
  exists pd,
    create_revision_plan oracle fromisoformat isoformat str_exn clock
      context exam_date topics current_performance = Ok pd /\
    PlannerAgent.exam_date pd = isoformat (add_days (now clock 0) 30) /\
    days_until_exam pd = if clock 1%nat =? clock 0%nat then 30 else 29.
Proof.
  intros Hdate Hclock.
  assert (exam_datetime fromisoformat clock exam_date
          = (add_days (now clock 0) 30, 1%nat)) as Hexam.
  { unfold exam_datetime.
    destruct Hdate as [-> | [-> | (s & -> & Hparse)]]; try done.
    rewrite Hparse. by destruct s. }
  assert (sub_days (add_days (now clock 0) 30) (now clock 1)
          = Ok (if clock 1%nat =? clock 0%nat then 30 else 29)) as Hsub.
  { unfold sub_days, add_days, now, us_per_day in *. simpl. f_equal.
    destruct (Z.eqb_spec (clock 1%nat) (clock 0%nat)) as [-> | Hne].
    - symmetry. apply (Z.div_unique _ _ 30 0); lia.
    - symmetry.
      apply (Z.div_unique _ _ 29
               (86400000000 - (clock 1%nat - clock 0%nat))); lia. }
  unfold create_revision_plan. rewrite Hexam, Hsub. cbn [obind].
  match goal with
  | |- context [try_except ?body _] => destruct body as [pd|e] eqn:E
  end; cbn [try_except].
  - exists pd. split; [done |].
    unfold create_revision_plan_try in E.
    destruct (oracle _) as [| |data]; try discriminate E.
    destruct (py_get data "plan" (VList [])) as [plan0|]; [| discriminate E].
    cbn [obind] in E. destruct (py_iter plan0) as [items|]; [| discriminate E].
    cbn [obind] in E.
    destruct (stamp_dates _ _ _ items) as [items'|]; [| discriminate E].
    cbn [obind] in E.
    destruct (py_get data "summary" (VStr "")); [| discriminate E].
    cbn [obind] in E. injection E as <-. simpl.
    split; [done |]. by destruct (clock 1%nat =? clock 0%nat).
  - eexists. split; [done |]. simpl.
    split; [done |]. by destruct (clock 1%nat =? clock 0%nat).
Qed.

(** X9.  A plan is stamped whole or dropped whole: if any entry of the
    service's plan is not an object, the handler returns an empty plan with
    the error summary, still reporting the exam date and the day count. *)
Theorem one_bad_entry_drops_the_plan (context : string)
    (exam_date : option string) (topics : option (list string))
    (current_performance : option (gmap string Q))
    (exam_dt : datetime) (k : nat) (raw_days : Z)
    (data : value) (items : list value) :
  exam_datetime fromisoformat clock exam_date = (exam_dt, k) ->
  sub_days exam_dt (now clock k) = Ok raw_days ->
  oracle {| p_context := substring 0 (Z.to_nat 5000) context;
            p_days := Z.max 1 raw_days;
            p_topics := if_topics topics;
            p_performance := if_performance current_performance |}
    = Parsed data ->
  py_get data "plan" (VList []) = Ok (VList items) ->
  Exists (fun x => forall kvs, x <> VDict kvs) items ->
  create_revision_plan oracle fromisoformat isoformat str_exn clock
    context exam_date topics current_performance
  = Ok {| plan := VList [];
          summary := VStr (String.append "Error creating plan: "
                             (str_exn TypeError));
          exam_date := isoformat exam_dt;
          days_until_exam := Z.max 1 raw_days |}.
Proof.
  intros Hexam Hsub Hreply Hget Hbad.
  unfold create_revision_plan. rewrite Hexam, Hsub. cbn [obind].
  unfold create_revision_plan_try. rewrite Hreply, Hget. cbn [obind py_iter].
  by rewrite (stamp_dates_bad_entry _ _ _ Hbad).
Qed.

(** X10.  Stamping touches the "date" key only: the returned plan has the
    entries of the service's plan, in order, and under every other key an
    entry reads as the service wrote it; a date the service wrote itself
    is overwritten. *)
Theorem stamping_changes_only_the_date (context : string)
    (exam_date : option string) (topics : option (list string))
    (current_performance : option (gmap string Q))
    (pd : plan_data) (item : value) (items : list value) :
  create_revision_plan oracle fromisoformat isoformat str_exn clock
    context exam_date topics current_performance = Ok pd ->
  plan pd = VList (item :: items) ->
  exists pr data items0,
    oracle pr = Parsed data /\
    py_get data "plan" (VList []) = Ok (VList items0) /\
    Forall2 (fun new old =>
               forall key d, key <> "date" ->
                 py_get new key d = py_get old key d)
            (item :: items) items0.
Proof.
  intros Hrun Hplan.
  destruct (PlannerFacts.create_revision_plan_ok _ _ _ _ _ _ _ _ _ _ Hrun)
    as [Hnil | (pr & exam_dt & Htry)]; [congruence |].
  destruct (PlannerFacts.try_block_ok _ _ _ _ _ _ _ Htry)
    as (_ & data & plan0 & its & its' & Hreply & Hget & Hit & Hst & Hpd).
  rewrite Hplan in Hpd. destruct plan0; try discriminate Hpd.
  simpl in Hit, Hpd. injection Hit as ->. injection Hpd as <-.
  exists pr, data, its. split; [done |]. split; [done |].
  destruct (PlannerFacts.stamp_dates_spec _ _ _ _ _ Hst) as [Hlen Hall].
  apply Forall2_same_length_lookup. split; [done |].
  intros i new old Hnew Hold key d Hkey.
  destruct (Hall _ _ Hnew) as (kvs & Hold' & ->).
  rewrite Hold in Hold'. injection Hold' as ->. simpl.
  by rewrite dict_lookup_store_ne.
Qed.

(** X11.  Whatever the text, the planner is asked about its first 5000
    characters only, so the cut at 8000 made by [/planner/create] never
    shows: the endpoint's answer is the planner's answer on the whole
    text. *)
Theorem endpoint_cut_never_shows (text : string)
    (performance_metrics : list Api.metric)
    (request : Api.create_plan_request) :
  Api.create_revision_plan oracle fromisoformat isoformat str_exn clock
    text performance_metrics request
  = create_revision_plan oracle fromisoformat isoformat str_exn clock
      text (Api.req_exam_date request) (Api.req_topics request)
      (if_performance (Some (Api.performance_dict performance_metrics))).
Proof.
  unfold Api.create_revision_plan, create_revision_plan, Api.MAX_TEXT_FOR_AI.
  rewrite substring_prefix_twice by (apply Z2Nat.inj_le; lia).
  destruct (exam_datetime fromisoformat clock (Api.req_exam_date request))
    as [exam_dt k].
  destruct (sub_days exam_dt (now clock k)); [| done]. cbn [obind].
  unfold if_performance.
  by destruct (decide (Api.performance_dict performance_metrics = ∅)).
Qed.

End WithServices.

Lemma aware_exam_date_raises_witness :
  create_revision_plan sample_oracle aware_parser sample_isoformat
    sample_str_exn sample_clock "Limits and series."
    (Some "1970-01-06T00:00:00Z") None None = Raise TypeError.
Proof.
  apply (aware_exam_date_raises sample_oracle aware_parser sample_isoformat
           sample_str_exn sample_clock "Limits and series."
           "1970-01-06T00:00:00Z" None None
           {| dt_us := 5 * us_per_day; dt_offset := Some 0 |} 0).
  - discriminate.
  - reflexivity.
  - reflexivity.
Defined.

Lemma default_exam_date_counts_29_days_witness :
  exists pd,
    run None None None = Ok pd /\
    exam_date pd = sample_isoformat (add_days (now sample_clock 0) 30) /\
    days_until_exam pd = 29.
Proof.
  apply (default_exam_date_counts_29_days sample_oracle sample_fromisoformat
           sample_isoformat sample_str_exn sample_clock "Limits and series."
           None None None).
  - by left.
  - unfold sample_clock, us_per_day. simpl. lia.
Defined.

Lemma one_bad_entry_drops_the_plan_witness :
  create_revision_plan broken_oracle sample_fromisoformat sample_isoformat
    sample_str_exn sample_clock "Limits and series."
    (Some "1970-01-06T00:00:00") None None
  = Ok {| plan := VList [];
          summary := VStr (String.append "Error creating plan: "
                             (sample_str_exn TypeError));
          exam_date := sample_isoformat (naive (5 * us_per_day));
          days_until_exam := Z.max 1 5 |}.
Proof.
  apply (one_bad_entry_drops_the_plan broken_oracle sample_fromisoformat
           sample_isoformat sample_str_exn sample_clock "Limits and series."
           (Some "1970-01-06T00:00:00") None None
           (naive (5 * us_per_day)) 0%nat 5
           (VDict [("plan", VList [VDict [("day", VNum 1)]; VStr "rest"])])
           [VDict [("day", VNum 1)]; VStr "rest"]).
  - reflexivity.
  - reflexivity.
  - reflexivity.
  - reflexivity.
  - apply Exists_cons_tl, Exists_cons_hd. discriminate.
Defined.

Lemma stamping_changes_only_the_date_witness :
  exists pr data items0,
    sample_oracle pr = Parsed data /\
    py_get data "plan" (VList []) = Ok (VList items0) /\
    Forall2 (fun new old =>
               forall key d, key <> "date" ->
                 py_get new key d = py_get old key d)
            sample_days items0.
Proof.
  apply (stamping_changes_only_the_date sample_oracle sample_fromisoformat
           sample_isoformat sample_str_exn sample_clock "Limits and series."
           (Some "1970-01-03T00:00:00") None None
           (sample_result "1970-01-03" 2)).
  - reflexivity.
  - reflexivity.
Defined.

End PlanningFacts.

(** ** More on the averages, and the statistics endpoint *)

Module AveragesFacts.
Import Api Notions Samples.

Lemma sum_in_range (v : list Q) :
  Forall in_range v ->
  (0 <= fold_right Qplus 0 v)%Q /\
  (fold_right Qplus 0 v <= inject_Z (Z.of_nat (length v)))%Q.
Proof.
  induction 1 as [|x v [Hx0 Hx1] _ [IH0 IH1]]; simpl fold_right.
  - split; discriminate.
  - cbn [length]. rewrite Nat2Z.inj_succ, <- Z.add_1_l, inject_Z_plus.
    change (inject_Z 1) with 1%Q. split; lra.
Qed.

Lemma quotient_in_range (v : list Q) :
  v <> [] -> Forall in_range v ->
  in_range (foldl Qplus 0 v / inject_Z (Z.of_nat (length v)))%Q.
Proof.
  intros Hne Hv. destruct (sum_in_range v Hv) as [H0 H1].
  assert (0 < inject_Z (Z.of_nat (length v)))%Q as Hpos.
  { destruct v; [done |]. cbn [length].
    rewrite Nat2Z.inj_succ. change 0%Q with (inject_Z 0).
    rewrite <- Zlt_Qlt. lia. }
  unfold in_range. rewrite AggregationFacts.foldl_Qplus, Qplus_0_l. split.
  - apply Qle_shift_div_l; [done |]. by rewrite Qmult_0_l.
  - apply Qle_shift_div_r; [done |]. by rewrite Qmult_1_l.
Qed.

Lemma scores_of_nonempty ms m : m ∈ ms -> scores_of (topic m) ms <> [].
Proof.
  intros Hm Hnil.
  assert (score m ∈ scores_of (topic m) ms) as Hin.
  { unfold scores_of. apply list_elem_of_fmap. exists m. split; [done |].
    by apply list_elem_of_filter. }
  rewrite Hnil in Hin. by apply elem_of_nil in Hin.
Qed.

(** X12.  The mapping is empty exactly when there are no rows, so the
    planner is told "no performance data" exactly then. *)
Theorem no_rows_no_performance_data (ms : list metric) :
  performance_dict ms = ∅ <-> ms = [].
Proof.
  split; [| by intros ->].
  intros Hempty. destruct ms as [|m ms]; [done |]. exfalso.
  assert (m ∈ m :: ms) as Hm by apply list_elem_of_here.
  pose proof (AggregationFacts.performance_dict_lookup (m :: ms) (topic m))
    as Hlook.
  rewrite Hempty, lookup_empty in Hlook.
  pose proof (scores_of_nonempty _ _ Hm) as Hne.
  by destruct (scores_of (topic m) (m :: ms)).
Qed.

(** X13.  Averages stay in range: if every score read is in [0,1], so is
    every average in the mapping. *)
Theorem averages_stay_in_range (ms : list metric) (t : string) (avg : Q) :
  Forall (fun m => in_range (score m)) ms ->
  performance_dict ms !! t = Some avg ->
  in_range avg.
Proof.
  intros Hms Hlook. rewrite AggregationFacts.performance_dict_lookup in Hlook.
  assert (Forall in_range (scores_of t ms)) as Hv.
  { unfold scores_of. apply Forall_fmap.
    apply Forall_forall. intros m [_ Hm]%list_elem_of_filter.
    by apply (proj1 (Forall_forall _ _) Hms). }
  destruct (scores_of t ms) as [|x v] eqn:E; [discriminate |].
  injection Hlook as <-. by apply (quotient_in_range (x :: v)).
Qed.

Lemma averages_stay_in_range_witness : in_range (140 # 200).
Proof.
  apply (averages_stay_in_range algebra_geometry "algebra" (140 # 200)).
  - unfold algebra_geometry, in_range.
    repeat constructor; simpl; discriminate.
  - reflexivity.
Defined.

(** X14.  The order of the rows changes neither the topics of the
    mapping nor, for any topic, the scores that are averaged: the groups
    hold the same scores, at most in another order. *)
Theorem row_order_keeps_topics_and_groups (ms ms' : list metric) :
  Permutation ms ms' ->
  dom (performance_dict ms) = dom (performance_dict ms') /\
  forall t,
    option_Forall2 Permutation (group_scores ms !! t) (group_scores ms' !! t).
Proof.
  intros Hp.
  assert (forall t, Permutation (scores_of t ms) (scores_of t ms')) as Hv
    by (intros t; unfold scores_of; by rewrite Hp).
  assert (forall t,
            option_Forall2 Permutation (group_scores ms !! t)
              (group_scores ms' !! t)) as Hgroups.
  { intros t. rewrite !AggregationFacts.group_scores_lookup.
    specialize (Hv t). destruct (scores_of t ms) as [|x v].
    - apply Permutation_nil in Hv as ->. constructor.
    - destruct (scores_of t ms') as [|x' v'];
        [by apply Permutation_sym, Permutation_nil in Hv |].
      by constructor. }
  split; [| exact Hgroups].
  apply set_eq. intros t. unfold performance_dict.
  rewrite !elem_of_dom, !lookup_fmap, !fmap_is_Some.
  specialize (Hgroups t).
  destruct Hgroups; split; intros [? ?]; by eauto.
Qed.

Lemma row_order_keeps_topics_and_groups_witness :
  dom (performance_dict algebra_geometry)
    = dom (performance_dict (reverse algebra_geometry)) /\
  forall t,
    option_Forall2 Permutation (group_scores algebra_geometry !! t)
      (group_scores (reverse algebra_geometry) !! t).
Proof.
  apply (row_order_keeps_topics_and_groups algebra_geometry
           (reverse algebra_geometry)).
  apply Permutation_sym, reverse_Permutation.
Defined.

(** X15.  [/performance/{context_id}] and [/planner/create] agree on the
    per-topic averages: their fallbacks for an empty group (0.0 and 0.5)
    are never used, since a group is created by its first score. *)
Theorem statistics_agree_with_planner (context_id : string)
    (quiz_results : list QuizResult.t) (flashcards : list Flashcard.t)
    (ms : list metric) :
  Endpoints.topic_performance
    (Endpoints.get_performance_stats context_id quiz_results flashcards ms)
  = performance_dict ms /\
  (forall t v, group_scores ms !! t = Some v -> v <> []).
Proof.
  assert (forall t v, group_scores ms !! t = Some v -> v <> []) as Hne.
  { intros t v. rewrite AggregationFacts.group_scores_lookup.
    destruct (scores_of t ms); [done |]. by intros [= <-]. }
  split; [| exact Hne].
  unfold Endpoints.get_performance_stats, performance_dict. simpl.
  apply map_fmap_ext. intros t v Hv.
  specialize (Hne t v Hv). by destruct v.
Qed.

(** X16.  The statistics are sound numbers: without quizzes the average
    score is 0 (nothing is divided by zero), with in-range quiz scores it is
    in [0,1], and the mastered flashcards are at most all flashcards, a
    mastery of exactly 0.8 counting as mastered. *)
Theorem statistics_are_sound (context_id : string)
    (quiz_results : list QuizResult.t) (flashcards : list Flashcard.t)
    (ms : list metric) :
  let stats :=
    Endpoints.get_performance_stats context_id quiz_results flashcards ms in
  (quiz_results = [] -> Endpoints.average_score stats = 0%Q) /\
  (Forall (fun r => in_range (QuizResult.score r)) quiz_results ->
   in_range (Endpoints.average_score stats)) /\
  (Endpoints.mastered_flashcards stats <= Endpoints.total_flashcards stats)%nat /\
  (Forall (fun f => (8 # 10 <= Flashcard.mastery_level f)%Q) flashcards ->
   Endpoints.mastered_flashcards stats = Endpoints.total_flashcards stats).
Proof.
  intros stats. subst stats. unfold Endpoints.get_performance_stats.
  cbn [Endpoints.average_score Endpoints.mastered_flashcards
       Endpoints.total_flashcards].
  split; [by intros -> |]. split; [| split].
  - intros Hr. destruct quiz_results as [|r rs]; [split; discriminate |].
    replace (0 <? Z.of_nat (length (r :: rs))) with true
      by (symmetry; apply Z.ltb_lt; cbn [length]; lia).
    rewrite <- (length_fmap QuizResult.score).
    apply quotient_in_range; [done |]. by apply Forall_fmap.
  - apply length_filter.
  - intros Hall. f_equal. induction Hall as [|f fs Hf _ IH]; [done |].
    rewrite filter_cons, decide_True; [by rewrite IH |].
    by apply Qle_bool_iff.
Qed.

Lemma statistics_are_sound_witness :
  let stats :=
    Endpoints.get_performance_stats "doc" []
      [{| Flashcard.mastery_level := 0.8 |}] [] in
  Endpoints.average_score stats = 0%Q /\
  Endpoints.mastered_flashcards stats = Endpoints.total_flashcards stats.
Proof.
  pose proof (statistics_are_sound "doc" []
                [{| Flashcard.mastery_level := 0.8 |}] [])
    as (Hzero & _ & _ & Hall).
  split; [by apply Hzero |].
  apply Hall. repeat constructor. discriminate.
Defined.

Lemma no_rows_no_performance_data_witness :
  performance_dict [] = ∅ /\ algebra_geometry <> [] /\
  performance_dict algebra_geometry <> ∅.
Proof.
  split; [by apply (proj2 (no_rows_no_performance_data [])) |].
  split; [discriminate |].
  intros H. by apply (proj1 (no_rows_no_performance_data algebra_geometry)) in H.
Defined.

Lemma statistics_agree_with_planner_witness :
  Endpoints.topic_performance
    (Endpoints.get_performance_stats "doc" [] [] algebra_geometry)
  = performance_dict algebra_geometry /\
  [0.4%Q] <> [].
Proof.
  pose proof (statistics_agree_with_planner "doc" [] [] algebra_geometry)
    as [Hagree Hgroups].
  split; [exact Hagree |].
  apply (Hgroups "geometry"). reflexivity.
Defined.

End AveragesFacts.

(** ** The [/quiz/grade] endpoint *)

Module GradeEndpointFacts.
Import QuizAgent Notions MoreNotions Samples MoreSamples.

Lemma correct_count_fallback n :
  Endpoints.correct_count (replicate n error_result) = Ok 0%nat.
Proof. induction n as [|n IH]; [done |]. simpl. by rewrite IH. Qed.

Lemma correct_count_le items c :
  Endpoints.correct_count items = Ok c -> (c <= length items)%nat.
Proof.
  revert c. induction items as [|r items IH]; intros c H; simpl in H.
  - injection H as <-. done.
  - destruct (py_get r "is_correct" (VBool false)) as [v|]; [| discriminate].
    cbn [obind] in H.
    destruct (Endpoints.correct_count items) as [n|]; [| discriminate].
    cbn [obind] in H. injection H as <-. specialize (IH n eq_refl).
    destruct (py_truthy v); simpl; lia.
Qed.

Lemma correct_count_graded items flags :
  Forall2 graded items flags ->
  Endpoints.correct_count items = Ok (count_true flags).
Proof.
  unfold count_true.
  induction 1 as [|item flag items flags (kvs & -> & Hflag) _ IH]; [done |].
  cbn [Endpoints.correct_count py_get]. rewrite Hflag. cbn [obind].
  rewrite IH. cbn [obind py_truthy]. rewrite filter_cons.
  destruct flag; [by rewrite decide_True | by rewrite decide_False].
Qed.

Lemma ratio_in_range (c n : nat) :
  (c <= n)%nat -> (0 < n)%nat ->
  in_range (inject_Z (Z.of_nat c) / inject_Z (Z.of_nat n))%Q.
Proof.
  intros Hc Hn.
  assert (0 < inject_Z (Z.of_nat n))%Q as Hpos.
  { change 0%Q with (inject_Z 0). rewrite <- Zlt_Qlt. lia. }
  split.
  - apply Qle_shift_div_l; [done |]. rewrite Qmult_0_l.
    change 0%Q with (inject_Z 0). rewrite <- Zle_Qle. lia.
  - apply Qle_shift_div_r; [done |]. rewrite Qmult_1_l.
    rewrite <- Zle_Qle. lia.
Qed.

Section WithOracle.
Variable oracle : list grading_item -> reply.

(** X17.  A failed grading is stored as a failed quiz: when the call of
    the service raises or its content does not parse, the row handed to the
    database has score 0 and counts every question, and the window is as it
    was. *)
Theorem grading_failure_is_stored_as_zero
    (request : Endpoints.grade_quiz_request) (tr : list value) :
  let gd := grading_data (Endpoints.quiz_data request)
              (Endpoints.user_answers request) in
  oracle gd = CallFailed \/ oracle gd = Unparsable ->
  exists row results,
    Endpoints.grade_quiz oracle request tr = (Ok (row, results), tr) /\
    (QuizResult.score row == 0)%Q /\
    QuizResult.total_questions row = length (Endpoints.quiz_data request) /\
    QuizResult.document_id row = Endpoints.context_id request /\
    QuizResult.difficulty row = Endpoints.difficulty request.
Proof.
  intros gd Hfail. unfold Endpoints.grade_quiz.
  assert (grade_quiz oracle (Endpoints.quiz_data request)
            (Endpoints.user_answers request) tr
          = (Ok (VList (replicate (length (Endpoints.quiz_data request))
                          error_result)), tr)) as Hagent.
  { unfold grade_quiz, try_catch, grade_quiz_try. fold gd.
    by destruct Hfail as [-> | ->]. }
  unfold bind at 1. rewrite Hagent.
  unfold bind at 1, lift, py_iter. unfold bind at 1, lift.
  rewrite correct_count_fallback. unfold ret.
  eexists _, _. split; [done |]. cbn.
  rewrite length_replicate. repeat split; try done.
  destruct (replicate _ _); reflexivity.
Qed.

(** X18.  Whatever the service answers, a row that is produced has a score
    between 0 and 1 and counts the results returned. *)
Theorem stored_score_is_a_fraction
    (request : Endpoints.grade_quiz_request) (tr tr' : list value)
    (row : QuizResult.t) (results : value) :
  Endpoints.grade_quiz oracle request tr = (Ok (row, results), tr') ->
  in_range (QuizResult.score row) /\
  exists items, py_iter results = Ok items /\
                QuizResult.total_questions row = length items.
Proof.
  unfold Endpoints.grade_quiz. unfold bind at 1.
  destruct (grade_quiz oracle _ _ tr) as [[rs|e] tr1]; [| discriminate].
  unfold bind at 1, lift.
  destruct (py_iter rs) as [items|e] eqn:Hit; [| discriminate].
  unfold bind at 1, lift.
  destruct (Endpoints.correct_count items) as [c|e] eqn:Hc; [| discriminate].
  unfold ret. intros [= <- <- <-]. cbn.
  split; [| by exists items].
  pose proof (correct_count_le _ _ Hc) as Hle.
  destruct (py_truthy rs) eqn:Ht; [| split; discriminate].
  apply ratio_in_range; [done |].
  destruct items; [| simpl; lia].
  destruct rs as [| | | s | l | kvs]; try discriminate Hit; simpl in Hit, Ht.
  - destruct s; [discriminate Ht | discriminate Hit].
  - injection Hit as ->. discriminate Ht.
  - destruct kvs; [discriminate Ht | discriminate Hit].
Qed.

(** X19.  On a fresh agent the score stored for a graded quiz is the score
    the difficulty decision is then taken on. *)
Theorem stored_score_is_decision_score
    (request : Endpoints.grade_quiz_request) (current : string)
    (kvs : list (string * value)) (items : list value) (flags : list bool) :
  oracle (grading_data (Endpoints.quiz_data request)
            (Endpoints.user_answers request)) = Parsed (VDict kvs) ->
  default (VList []) (dict_lookup kvs "results") = VList items ->
  Forall2 graded items flags ->
  flags <> [] ->
  exists row,
    Endpoints.grade_quiz oracle request init
      = (Ok (row, VList items), VBool <$> flags) /\
    has_score (VBool <$> flags) (QuizResult.score row) /\
    get_next_difficulty current (VBool <$> flags)
      = (Ok (next_level (QuizResult.score row) current), []).
Proof.
  intros Hreply Hres Hitems Hne.
  unfold Endpoints.grade_quiz. unfold bind at 1.
  rewrite (WindowFacts.grade_quiz_graded _ _ _ _ _ _ _ Hreply Hres Hitems).
  unfold bind at 1, lift, py_iter. unfold bind at 1, lift.
  rewrite (correct_count_graded _ _ Hitems). unfold ret, init.
  rewrite app_nil_l. eexists. split; [done |]. cbn [QuizResult.score].
  assert (py_truthy (VList items) = true) as ->
    by (by destruct Hitems).
  rewrite (Forall2_length _ _ _ Hitems).
  pose proof (WindowFacts.window_of_flags_score flags Hne) as Hs.
  split; [exact Hs |].
  by apply DifficultyFacts.get_next_difficulty_scored.
Qed.

End WithOracle.

Lemma grading_failure_is_stored_as_zero_witness :
  exists row results,
    Endpoints.grade_quiz (fun _ => CallFailed) sample_grade_request [VBool true]
      = (Ok (row, results), [VBool true]) /\
    (QuizResult.score row == 0)%Q /\
    QuizResult.total_questions row = 2%nat /\
    QuizResult.document_id row = "doc" /\
    QuizResult.difficulty row = "Easy".
Proof.
  apply (grading_failure_is_stored_as_zero (fun _ => CallFailed)
           sample_grade_request [VBool true]).
  by left.
Defined.

Lemma stored_score_is_a_fraction_witness :
  in_range (1 # 2) /\
  exists items, py_iter (VList two_verdicts) = Ok items /\ 2%nat = length items.
Proof.
  apply (stored_score_is_a_fraction
           (fun _ => Parsed (VDict [("results", VList two_verdicts)]))
           sample_grade_request [] [VBool true; VBool false]
           {| QuizResult.document_id := "doc";
              QuizResult.difficulty := "Easy";
              QuizResult.score := 1 # 2;
              QuizResult.total_questions := 2 |}
           (VList two_verdicts)).
  reflexivity.
Defined.

Lemma stored_score_is_decision_score_witness :
  exists row,
    Endpoints.grade_quiz
      (fun _ => Parsed (VDict [("results", VList two_verdicts)]))
      sample_grade_request init
      = (Ok (row, VList two_verdicts), VBool <$> [true; false]) /\
    has_score (VBool <$> [true; false]) (QuizResult.score row) /\
    get_next_difficulty "Easy" (VBool <$> [true; false])
      = (Ok (next_level (QuizResult.score row) "Easy"), []).
Proof.
  apply (stored_score_is_decision_score
           (fun _ => Parsed (VDict [("results", VList two_verdicts)]))
           sample_grade_request "Easy" [("results", VList two_verdicts)]
           two_verdicts [true; false]).
  - reflexivity.
  - reflexivity.
  - repeat constructor; eexists; split; reflexivity.
  - discriminate.
Defined.

End GradeEndpointFacts.

(** ** The relaying agents *)

Module RelayFacts.
Import Agents.

Section WithText.
Variable strip : string -> string.
Variable str_exn : exn -> string.

(** X20.  [FlashcardGenerator.generate] answers [[]] for an empty or
    blank text whatever the service is.  Otherwise it answers [[]] or a
    non-empty string, list or dict found under "flashcards" (a truthy value
    without a length ends in [[]]).  The one exception that can leave it is
    the UnboundLocalError of its first handler, exactly when a
    JSONDecodeError is raised before the content of the answer was read. *)
Theorem generate_guards_and_endings (text : string) :
  (blank strip text = true ->
   forall oracle, generate strip oracle text = Returned (VList [])) /\
  (forall oracle,
     generate strip oracle text = RaisedUnboundLocalError <->
     blank strip text = false /\ oracle text = RaisedEarly JSONDecodeError) /\
  (forall oracle v,
     generate strip oracle text = Returned v ->
     v = VList [] \/
     py_truthy v = true /\ (exists n, py_len v = Ok n) /\
     exists data, oracle text = Loaded data /\
                  py_get data "flashcards" (VList []) = Ok v).
Proof.
  split; [| split].
  - intros Hb oracle. unfold generate. by rewrite Hb.
  - intros oracle. unfold generate.
    destruct (blank strip text); [split; [done | by intros [? _]] |].
    destruct (oracle text) as [e | e | data].
    + destruct e; simpl; split; try done; by intros [_ ?].
    + destruct e; simpl; split; try done; by intros [_ ?].
    + split; [| by intros [_ ?]].
      destruct (py_get data "flashcards" (VList [])) as [v|e];
        [| by destruct e].
      cbn [obind]. destruct (py_truthy v); cbn [negb]; [| done].
      destruct (py_len v) as [n|e]; [done | by destruct e].
  - intros oracle v. unfold generate.
    destruct (blank strip text); [intros [= <-]; by left |].
    destruct (oracle text) as [e | e | data] eqn:Hd.
    + destruct e; simpl; intros [= <-]; by left.
    + destruct e; simpl; intros [= <-]; by left.
    + destruct (py_get data "flashcards" (VList [])) as [w|e] eqn:Hget;
        [| destruct e; simpl; intros [= <-]; by left].
      cbn [obind]. destruct (py_truthy w) eqn:Ht; cbn [negb];
        [| intros [= <-]; by left].
      destruct (py_len w) as [n|e] eqn:Hlen;
        [| destruct e; simpl; intros [= <-]; by left].
      cbn [obind]. intros [= <-]. right.
      split; [done |]. split; [by exists n |]. by exists data.
Qed.

(** X21.  [QuizAgent.generate_quiz] never raises and has no guard on the
    text: it always asks the service, and answers [[]] or a non-empty
    string, list or dict found under "questions"; a truthy value without a
    length ends in [[]] like every failure. *)
Theorem generate_quiz_never_raises (oracle : quiz_prompt -> outcome value)
    (context difficulty : string) (num_questions : Z) :
  exists v,
    generate_quiz oracle context difficulty num_questions = Ok v /\
    (v = VList [] \/
     py_truthy v = true /\ (exists n, py_len v = Ok n) /\
     exists data,
       oracle {| quiz_context := context;
                 quiz_difficulty := difficulty;
                 quiz_num_questions := num_questions |} = Ok data /\
       py_get data "questions" (VList []) = Ok v).
Proof.
  unfold generate_quiz.
  destruct (oracle _) as [data|e] eqn:Hd;
    [| exists (VList []); split; [done | by left]].
  cbn [obind].
  destruct (py_get data "questions" (VList [])) as [v|e] eqn:Hget;
    [| exists (VList []); split; [done | by left]].
  cbn [obind]. destruct (py_truthy v) eqn:Ht; cbn [negb try_except];
    [| exists (VList []); split; [done | by left]].
  destruct (py_len v) as [n|e] eqn:Hlen; cbn [obind try_except];
    [| exists (VList []); split; [done | by left]].
  exists v. split; [done |]. right.
  split; [done |]. split; [by exists n |]. by exists data.
Qed.

(** X22.  What [DoubtAgent.ask_question] can end with.  A value it returns
    is the service's answer, unchanged, or an answer it made up, which
    always begins with "Error: " and has an empty reference.  It never
    raises JSONDecodeError or OpenAIError: an exception that leaves it is
    another one, raised by the service after both guards passed.  With an
    empty or blank context neither the question nor the service matters. *)
Theorem ask_question_endings
    (oracle : doubt_prompt -> outcome value) (question context : string) :
  let asked := oracle {| doubt_context := context;
                         doubt_question := question |} in
  let result := ask_question strip str_exn oracle question context in
  (forall v, result = Ok v ->
     (blank strip context = false /\ question <> EmptyString /\
      asked = Ok v) \/
     exists message, v = answer_only (String.append "Error: " message)) /\
  (forall e, result = Raise e ->
     asked = Raise e /\ e <> JSONDecodeError /\ e <> OpenAIError /\
     blank strip context = false /\ question <> EmptyString) /\
  (blank strip context = true ->
   forall oracle' question',
     ask_question strip str_exn oracle' question' context = result).
Proof.
  intros asked result. subst asked result. unfold ask_question.
  destruct (blank strip context) eqn:Hb.
  { split; [| split]; try done.
    intros v [= <-]. right. by eexists. }
  destruct (String.eqb question EmptyString) eqn:Hq.
  { split; [| split]; try done.
    intros v [= <-]. right. by eexists. }
  apply String.eqb_neq in Hq.
  destruct (oracle _) as [data|e] eqn:Hd.
  - split; [| split]; try done. intros v [= <-]. by left.
  - destruct e; (split; [| split]); try done;
      try (intros v [= <-]; right; by eexists);
      intros e [= <-]; by repeat split.
Qed.

(** X23.  [PlannerAgent.get_topic_analysis] never raises and does not
    tidy its result: it hands back the "topics" entry as it is, empty or not
    a list, and [[]] when the entry is missing or anything fails.  Only the
    first 5000 characters are asked about, so the cut at 8000 made by
    [/planner/topics] never shows. *)
Theorem topic_analysis_relays (oracle : string -> outcome value)
    (context : string) :
  (exists v,
     get_topic_analysis oracle context = Ok v /\
     (v = VList [] \/
      exists kvs,
        oracle (substring 0 (Z.to_nat 5000) context) = Ok (VDict kvs) /\
        dict_lookup kvs "topics" = Some v)) /\
  Endpoints.analyze_topics oracle context = get_topic_analysis oracle context.
Proof.
  split.
  - unfold get_topic_analysis.
    destruct (oracle _) as [data|e] eqn:Hd;
      [| exists (VList []); split; [done | by left]].
    cbn [obind]. destruct data as [| | | | |kvs];
      try (exists (VList []); split; [done | by left]).
    cbn [py_get try_except].
    destruct (dict_lookup kvs "topics") as [v|] eqn:Hl.
    + exists v. split; [done |]. right. by exists kvs.
    + exists (VList []). split; [done | by left].
  - unfold Endpoints.analyze_topics, get_topic_analysis, Api.MAX_TEXT_FOR_AI.
    by rewrite PlanningFacts.substring_prefix_twice
      by (apply Z2Nat.inj_le; lia).
Qed.

End WithText.

Lemma generate_guards_and_endings_witness :
  generate (fun s => s) (fun _ => Loaded (VDict [("flashcards", VNum 3)]))
    EmptyString = Returned (VList []) /\
  generate (fun s => s) (fun _ => RaisedEarly JSONDecodeError) "Limits."
    = RaisedUnboundLocalError.
Proof.
  split.
  - apply (proj1 (generate_guards_and_endings (fun s => s) EmptyString)).
    reflexivity.
  - apply (proj2 (proj1 (proj2 (generate_guards_and_endings (fun s => s)
                                  "Limits.")) _)).
    split; reflexivity.
Defined.

Lemma ask_question_endings_witness :
  ask_question (fun s => s) (fun _ => "Connection error.")
    (fun _ => Ok VNone) "Why?" EmptyString
  = ask_question (fun s => s) (fun _ => "Connection error.")
      (fun _ => Raise TypeError) "What is a limit?" EmptyString.
Proof.
  apply (proj2 (proj2 (ask_question_endings (fun s => s)
                         (fun _ => "Connection error.")
                         (fun _ => Raise TypeError)
                         "What is a limit?" EmptyString))).
  reflexivity.
Defined.

End RelayFacts.

(** ** The [/upload] endpoint *)

Module UploadFacts.
Import Endpoints.

Section WithStorage.
Variable extract_text : string -> result string.
Variable commit : document -> result unit.
Variable uuid4 : string.
Variable str_failure : failure -> string.

(** X24.  [/upload] answers exactly when the text extracted is not empty
    and the document is stored, and then reports the length of the whole
    text and its first 200 characters followed by "...".  Every failure
    leaves as status 500: the 400 raised for an empty text is caught by the
    endpoint's own handler and wrapped like any other exception. *)
Theorem upload_fails_only_with_500 (filename : string) :
  let result :=
    upload_document extract_text commit uuid4 str_failure filename in
  (forall e, result = Failed e ->
     exists cause,
       e = HTTPException 500
             (String.append "An error occurred: " (str_failure cause))) /\
  (extract_text filename = Done EmptyString ->
   result = Failed (HTTPException 500
              (String.append "An error occurred: "
                 (str_failure
                    (HTTPException 400
                       "Could not extract any text from the document."))))) /\
  (forall response, result = Done response ->
     exists text,
       extract_text filename = Done text /\ text <> EmptyString /\
       up_context_id response = uuid4 /\
       up_text_length response = String.length text /\
       up_text_snippet response
         = String.append (substring 0 200 text) "...").
Proof.
  intros result. subst result. unfold upload_document, upload_document_try.
  split; [| split].
  - intros e.
    destruct (extract_text filename) as [text|cause];
      [| intros [= <-]; by exists cause].
    destruct (String.eqb text EmptyString); [intros [= <-]; by eexists |].
    destruct (commit _) as [[]|cause]; [done | intros [= <-]; by exists cause].
  - by intros ->.
  - intros response.
    destruct (extract_text filename) as [text|cause]; [| done].
    destruct (String.eqb text EmptyString) eqn:Hempty; [done |].
    destruct (commit _) as [[]|cause]; [| done].
    intros [= <-]. exists text. apply String.eqb_neq in Hempty. by repeat split.
Qed.

End WithStorage.

Lemma upload_fails_only_with_500_witness :
  upload_document (fun _ => Done EmptyString) (fun _ => Done tt) "id-1"
    (fun _ => "400: no text") "scan.pdf"
  = Failed (HTTPException 500
              (String.append "An error occurred: " "400: no text")).
Proof.
  apply (proj1 (proj2 (upload_fails_only_with_500
                         (fun _ => Done EmptyString) (fun _ => Done tt)
                         "id-1" (fun _ => "400: no text") "scan.pdf"))).
  reflexivity.
Defined.

End UploadFacts.

(** ** Tables as Markdown *)

Module TableFacts.
Import Extractor MoreNotions MoreSamples.

Lemma append_cons c (s t : string) :
  String.append (String c s) t = String c (String.append s t).
Proof. reflexivity. Qed.

Lemma append_empty (t : string) : String.append EmptyString t = t.
Proof. reflexivity. Qed.

Ltac push_append := rewrite ?append_cons, ?append_empty.
Ltac count_pipes := cbn [bare_pipes Ascii.eqb Bool.eqb andb negb Nat.add].

Lemma bare_pipes_app b s1 s2 :
  bare_pipes b (String.append s1 s2)
  = (bare_pipes b s1 + bare_pipes (ends_escaped b s1) s2)%nat.
Proof.
  revert b. induction s1 as [|c s1 IH]; intros b; push_append; [done |].
  cbn [bare_pipes ends_escaped]. rewrite IH. lia.
Qed.

Lemma bare_pipes_escape b s : bare_pipes b (escape_pipes s) = 0%nat.
Proof.
  revert b. induction s as [|c s IH]; intros b; [done |].
  cbn [escape_pipes]. destruct (Ascii.eqb c "|") eqn:E.
  - count_pipes. apply IH.
  - cbn [bare_pipes]. rewrite E. cbn [andb Nat.add]. apply IH.
Qed.

Lemma concat_two sep (x y : string) (l : list string) :
  String.concat sep (x :: y :: l)
  = String.append x (String.append sep (String.concat sep (y :: l))).
Proof. reflexivity. Qed.

Lemma bare_pipes_joined b (cells : list string) :
  cells <> [] ->
  bare_pipes b (String.concat " | " (escape_pipes <$> cells))
  = pred (length cells).
Proof.
  intros Hne. revert b.
  induction cells as [|c cells IH]; intros b; [done |].
  destruct cells as [|c' cells].
  - cbn [fmap list_fmap String.concat length pred]. apply bare_pipes_escape.
  - rewrite (fmap_cons _ c), (fmap_cons _ c'), concat_two.
    rewrite bare_pipes_app, bare_pipes_escape. push_append. count_pipes.
    rewrite <- fmap_cons, IH by done. done.
Qed.

Lemma bare_pipes_row_line n r :
  padded n r <> [] ->
  bare_pipes false (row_line n r) = S (length (padded n r)).
Proof.
  intros Hne. unfold row_line. push_append. count_pipes.
  rewrite bare_pipes_app, bare_pipes_joined by done. count_pipes.
  destruct (padded n r); [done |]. simpl. lia.
Qed.

Lemma bare_pipes_dashes b n :
  bare_pipes b (String.concat "|" (replicate (S n) "---"%string)) = n.
Proof.
  revert b. induction n as [|n IH]; intros b.
  - by destruct b.
  - change (replicate (S (S n)) "---"%string)
      with ("---"%string :: "---"%string :: replicate n "---"%string).
    rewrite concat_two. push_append. count_pipes.
    change ("---"%string :: replicate n "---"%string)
      with (replicate (S n) "---"%string).
    rewrite IH. by destruct b.
Qed.

Lemma ends_escaped_dashes b n :
  ends_escaped b (String.concat "|" (replicate (S n) "---"%string)) = false.
Proof.
  revert b. induction n as [|n IH]; intros b; [done |].
  change (replicate (S (S n)) "---"%string)
    with ("---"%string :: "---"%string :: replicate n "---"%string).
  rewrite concat_two. push_append. cbn [ends_escaped].
  change ("---"%string :: replicate n "---"%string)
    with (replicate (S n) "---"%string).
  apply IH.
Qed.

Lemma bare_pipes_separator n :
  bare_pipes false (separator_line (S n)) = S (S n).
Proof.
  unfold separator_line. push_append. count_pipes.
  rewrite bare_pipes_app, bare_pipes_dashes, ends_escaped_dashes.
  count_pipes. lia.
Qed.

Lemma length_padded n (r : row) :
  (length r <= n)%nat -> length (padded n r) = n.
Proof.
  intros H. unfold padded.
  rewrite length_app, length_replicate, length_fmap. lia.
Qed.

Lemma row_le_num_cols (table_data : list row) r :
  r ∈ table_data -> (length r <= num_cols table_data)%nat.
Proof.
  intros Hr. destruct r as [|c r]; [simpl; lia |].
  unfold num_cols. apply max_list_elem_of_le.
  apply list_elem_of_fmap. exists (c :: r). split; [done |].
  by apply list_elem_of_filter.
Qed.

Lemma some_row_has_cells (table_data : list row) :
  existsb has_cells table_data = true ->
  exists c r, (c :: r) ∈ table_data.
Proof.
  induction table_data as [|r0 t IH]; [done |]. simpl.
  destruct r0 as [|c r0]; simpl.
  - intros H. destruct (IH H) as (c & r & Hin). exists c, r. by right.
  - intros _. exists c, r0. by left.
Qed.

(** X25.  A table comes out as the empty text exactly when none of its
    rows has a cell (in particular when it has no rows). *)
Theorem empty_markdown_iff_no_cells (table_data : list row) :
  _table_to_markdown table_data = EmptyString
  <-> Forall (fun r => r = []) table_data.
Proof.
  unfold _table_to_markdown.
  destruct (existsb has_cells table_data) eqn:E; cbn [negb].
  - split.
    + destruct table_data as [|header body]; [done |].
      cbn [markdown_lines]. rewrite concat_two. unfold row_line.
      push_append. discriminate.
    + intros Hall. destruct (some_row_has_cells _ E) as (c & r & Hin).
      by specialize (proj1 (Forall_forall _ _) Hall _ Hin).
  - split; [intros _ | done].
    apply Forall_forall. intros r Hr. destruct r as [|c r]; [done |].
    assert (existsb has_cells table_data = true) as Habs; [| congruence].
    apply existsb_exists. exists (c :: r). split; [| done].
    by apply list_elem_of_In.
Qed.

Lemma has_newline_app (s t : string) :
  has_newline (String.append s t) = has_newline s || has_newline t.
Proof.
  induction s as [|c s IH]; push_append; [done |].
  cbn [has_newline]. rewrite IH. by rewrite orb_assoc.
Qed.

Lemma has_newline_escape (s : string) :
  has_newline (escape_pipes s) = has_newline s.
Proof.
  induction s as [|c s IH]; [done |]. cbn [escape_pipes].
  destruct (Ascii.eqb c "|") eqn:E.
  - apply Ascii.eqb_eq in E. subst c. cbn [has_newline]. by rewrite IH.
  - cbn [has_newline]. by rewrite IH.
Qed.

Lemma has_newline_concat (sep : string) (parts : list string) :
  has_newline sep = false ->
  Forall (fun part => has_newline part = false) parts ->
  has_newline (String.concat sep parts) = false.
Proof.
  intros Hsep. induction 1 as [|x parts Hx Hparts IH]; [done |].
  destruct parts as [|y parts]; [exact Hx |].
  rewrite concat_two, !has_newline_app, Hx, Hsep. exact IH.
Qed.

Lemma has_newline_row_line n (r : row) :
  Forall (fun cell => has_newline (cell_text cell) = false) r ->
  has_newline (row_line n r) = false.
Proof.
  intros Hr. unfold row_line. rewrite !has_newline_app.
  rewrite has_newline_concat; [done | done |].
  apply Forall_fmap. unfold padded. apply Forall_app. split.
  - apply Forall_fmap. eapply Forall_impl; [exact Hr |].
    intros cell Hcell. cbn. by rewrite has_newline_escape.
  - by apply Forall_replicate.
Qed.

Lemma has_newline_separator n : has_newline (separator_line n) = false.
Proof.
  unfold separator_line. rewrite !has_newline_app.
  rewrite has_newline_concat; [done | done |]. by apply Forall_replicate.
Qed.

Lemma split_lines_one (s : string) :
  has_newline s = false -> split_lines s = [s].
Proof.
  induction s as [|c s IH]; [done |]. cbn [has_newline split_lines].
  intros [Hc Hs]%orb_false_iff. rewrite Hc, (IH Hs). done.
Qed.

Lemma split_lines_app (s t : string) :
  has_newline s = false ->
  split_lines (String.append s (String.append newline t))
  = s :: split_lines t.
Proof.
  induction s as [|c s IH]; push_append.
  - intros _. unfold newline. push_append. cbn [split_lines].
    by rewrite Ascii.eqb_refl.
  - cbn [has_newline split_lines]. intros [Hc Hs]%orb_false_iff.
    by rewrite Hc, (IH Hs).
Qed.

Lemma split_lines_concat (lines : list string) :
  lines <> [] ->
  Forall (fun line => has_newline line = false) lines ->
  split_lines (String.concat newline lines) = lines.
Proof.
  intros Hne Hall. induction Hall as [|x lines Hx Hlines IH]; [done |].
  destruct lines as [|y lines]; [by apply split_lines_one |].
  rewrite concat_two, split_lines_app by done. by rewrite IH.
Qed.

(** X26.  A table that has a cell, and no line feed inside a cell, comes
    out rectangular.  Its width is the length of its longest row and is at
    least 1; the text returned has a header line, a separator line and one
    line per later row that has cells; and every line of that text has
    width + 1 pipes that do not follow a backslash, however short the row
    was and whatever pipes its cells contain. *)
Theorem markdown_table_is_rectangular (table_data : list row) :
  existsb has_cells table_data = true ->
  Forall (Forall (fun cell => has_newline (cell_text cell) = false))
         table_data ->
  let n := num_cols table_data in
  let output_lines := split_lines (_table_to_markdown table_data) in
  (1 <= n)%nat /\
  (forall r, r ∈ table_data -> (length r <= n)%nat) /\
  length output_lines
    = (2 + length (filter (fun r => has_cells r = true)
                          (tail table_data)))%nat /\
  Forall (fun line => bare_pipes false line = S n) output_lines.
Proof.
  intros E Hclean n output_lines.
  assert (forall r, r ∈ table_data -> (length r <= n)%nat) as Hle
    by (intros r; apply row_le_num_cols).
  assert (1 <= n)%nat as Hpos.
  { destruct (some_row_has_cells _ E) as (c & r & Hin).
    specialize (Hle _ Hin). simpl in Hle. lia. }
  split; [done |]. split; [done |].
  assert (output_lines = markdown_lines table_data) as ->.
  { subst output_lines. unfold _table_to_markdown. rewrite E. cbn [negb].
    destruct table_data as [|header body]; [done |].
    apply split_lines_concat; [done |]. cbn [markdown_lines].
    apply Forall_cons in Hclean as [Hheader Hbody].
    constructor; [by apply has_newline_row_line |].
    constructor; [apply has_newline_separator |].
    apply Forall_fmap, Forall_forall.
    intros r [_ Hr]%list_elem_of_filter. apply has_newline_row_line.
    by apply (proj1 (Forall_forall _ _) Hbody). }
  destruct table_data as [|header body]; [done |].
  cbn [markdown_lines tail]. fold n. split.
  - cbn [length]. by rewrite length_fmap.
  - assert (forall r, r ∈ header :: body ->
              bare_pipes false (row_line n r) = S n) as Hrow.
    { intros r Hr. rewrite bare_pipes_row_line.
      - by rewrite length_padded by by apply Hle.
      - intros Hnil. apply (f_equal length) in Hnil.
        rewrite length_padded in Hnil by (by apply Hle). simpl in Hnil. lia. }
    constructor; [apply Hrow; by left |].
    constructor.
    + destruct n as [|n']; [lia |]. apply bare_pipes_separator.
    + apply Forall_fmap, Forall_forall.
      intros r [_ Hr]%list_elem_of_filter. apply Hrow. by right.
Qed.

Lemma markdown_table_is_rectangular_witness :
  (1 <= 3)%nat /\
  (forall r, r ∈ ragged_table -> (length r <= 3)%nat) /\
  length (split_lines (_table_to_markdown ragged_table)) = 3%nat /\
  Forall (fun line => bare_pipes false line = 4%nat)
         (split_lines (_table_to_markdown ragged_table)).
Proof.
  apply (markdown_table_is_rectangular ragged_table).
  - reflexivity.
  - unfold ragged_table. repeat constructor.
Defined.

Lemma empty_markdown_iff_no_cells_witness :
  _table_to_markdown [[]; []] = EmptyString /\
  _table_to_markdown ragged_table <> EmptyString.
Proof.
  split.
  - apply (proj2 (empty_markdown_iff_no_cells [[]; []])).
    by repeat constructor.
  - intros H. apply (proj1 (empty_markdown_iff_no_cells ragged_table)) in H.
    by inversion H.
Defined.

End TableFacts.
